(** * app.py: an HTTP facade over a partitioned document store and a secret store

    Shallow embedding of [src/app.py] (a Flask application talking to Azure
    Cosmos DB and Azure Key Vault) and the properties of its handlers.

    - Python values coming out of [request.get_json()] are the inductive
      [value]; a Python [dict] is a [gmap string value].
    - The code raises and catches exceptions, mutates module globals, logs
      and calls two backend services.  Handlers are therefore written in a
      state-and-exception monad [Py S] over a [World S] that carries the
      backend state, the list of backend calls made so far and the log.
    - The SDK objects ([CosmosClient], [ContainerProxy], [SecretClient]) are an
      interface, the type class [Azure]; [Mem] is an in-memory instance of it
      with the documented semantics of the two services. *)

From Stdlib Require Import ZArith String List Lia.
From stdpp Require Import base option gmap strings list fin_maps.

Local Open Scope string_scope.
Local Open Scope Z_scope.

(** ** Python values *)

(** What [json.loads] produces: [None], [bool], [int], [str], [list], [dict].
    (Numbers are integers; no claim depends on fractions.) *)
#[warnings="-register-all"]
Inductive value : Type :=
| VNone
| VBool (b : bool)
| VInt (n : Z)
| VStr (s : string)
| VList (l : list value)
| VDict (m : gmap string value).

(** Python truthiness, as used by [if not data]. *)
Definition truthy (v : value) : bool :=
  match v with
  | VNone => false
  | VBool b => b
  | VInt n => negb (n =? 0)
  | VStr s => negb (String.eqb s "")
  | VList l => match l with [] => false | _ => true end
  | VDict m => negb (Nat.eqb (size m) 0)
  end.

(** [sub in s] on strings: substring search. *)
Fixpoint is_substring (sub s : string) : bool :=
  String.prefix sub s
  || match s with
     | EmptyString => false
     | String _ s' => is_substring sub s'
     end.

(** ** Exceptions *)

Inductive exn_class : Type :=
| CosmosResourceNotFoundError
| CosmosResourceExistsError
| CosmosHttpResponseError
| ResourceNotFoundError
| HttpResponseError
| HTTPException
| TypeError
| KeyError
| ValueError.

(** An exception object: its class and [str(e)]. *)
Record exn : Type := Exn { exn_cls : exn_class; exn_str : string }.

Inductive outcome (A : Type) : Type :=
| Returns (a : A)
| Raises (e : exn).
Arguments Returns {A} a.
Arguments Raises {A} e.

(** [key in v] for a string key: membership in a dict's keys, equality with
    an element of a list, substring of a string; a [TypeError] on the
    values that are not containers. *)
Definition py_type_name (v : value) : string :=
  match v with
  | VNone => "NoneType"
  | VBool _ => "bool"
  | VInt _ => "int"
  | VStr _ => "str"
  | VList _ => "list"
  | VDict _ => "dict"
  end.

Definition py_in (key : string) (v : value) : outcome bool :=
  match v with
  | VDict m => Returns (bool_decide (is_Some (m !! key)))
  | VList l =>
      Returns (existsb (fun x => match x with
                                 | VStr s => String.eqb s key
                                 | _ => false
                                 end) l)
  | VStr s => Returns (is_substring key s)
  | _ => Raises (Exn TypeError
                   ("argument of type '" ++ py_type_name v ++ "' is not iterable"))
  end.

(** [v[key] = x] for a string key. *)
Definition py_setitem (key : string) (x : value) (v : value) : outcome value :=
  match v with
  | VDict m => Returns (VDict (<[key := x]> m))
  | VList _ =>
      Raises (Exn TypeError "list indices must be integers or slices, not str")
  | _ => Raises (Exn TypeError
                   ("'" ++ py_type_name v ++ "' object does not support item assignment"))
  end.

(** [v[key]] for a string key. *)
Definition py_getitem (key : string) (v : value) : outcome value :=
  match v with
  | VDict m =>
      match m !! key with
      | Some x => Returns x
      | None => Raises (Exn KeyError ("'" ++ key ++ "'"))
      end
  | VList _ =>
      Raises (Exn TypeError "list indices must be integers or slices, not str")
  | VStr _ => Raises (Exn TypeError "string indices must be integers, not 'str'")
  | _ => Raises (Exn TypeError
                   ("'" ++ py_type_name v ++ "' object is not subscriptable"))
  end.

(** ** Timestamps *)

(** A [datetime.datetime]; [utcoffset] is the offset in minutes of an aware
    datetime, [None] for a naive one. *)
Record datetime : Type := Datetime {
  year : Z; month : Z; day : Z;
  hour : Z; minute : Z; second : Z; microsecond : Z;
  utcoffset : option Z
}.

Definition digit (n : Z) : string :=
  String (Ascii.ascii_of_nat (48 + Z.to_nat (n mod 10))) EmptyString.

(** [n] in decimal on exactly [width] digits, zero padded. *)
Fixpoint zero_padded (width : nat) (n : Z) : string :=
  match width with
  | O => ""
  | S k => zero_padded k (n / 10) ++ digit n
  end.

(** [datetime.isoformat()]: [YYYY-MM-DDTHH:MM:SS], then [.ffffff] when the
    microseconds are not zero, then [+HH:MM] for an aware datetime. *)
Definition isoformat (d : datetime) : string :=
  zero_padded 4 (year d) ++ "-" ++ zero_padded 2 (month d) ++ "-"
  ++ zero_padded 2 (day d) ++ "T" ++ zero_padded 2 (hour d) ++ ":"
  ++ zero_padded 2 (minute d) ++ ":" ++ zero_padded 2 (second d)
  ++ (if microsecond d =? 0 then "" else "." ++ zero_padded 6 (microsecond d))
  ++ match utcoffset d with
     | None => ""
     | Some off =>
         (if off <? 0 then "-" else "+")
         ++ zero_padded 2 (Z.abs off / 60) ++ ":" ++ zero_padded 2 (Z.abs off mod 60)
     end.

(** ** SDK objects *)

(** [azure.keyvault.secrets.SecretProperties]: what listing returns; it has
    no value attribute. *)
Record SecretProperties : Type := {
  sp_name : string;
  sp_enabled : bool;
  sp_created_on : option datetime;
  sp_updated_on : option datetime
}.

(** [azure.keyvault.secrets.KeyVaultSecret]; [secret.name] is the name of
    its properties. *)
Record KeyVaultSecret : Type := {
  properties : SecretProperties;
  secret_value : string
}.

Definition secret_name (s : KeyVaultSecret) : string := sp_name (properties s).

(** The handles the module keeps in its globals. *)
Record CosmosClient : Type := { client_endpoint : string }.
Record DatabaseProxy : Type := { database_id : string }.
Record ContainerProxy : Type := {
  container_id : string;
  partition_key_path : string;
  offer_throughput : Z
}.
Record SecretClient : Type := { vault_url : string }.

(** Every call that leaves the process for one of the two services. *)
Inductive Call : Type :=
| CallCosmosClient (endpoint : string)
| CallCreateDatabaseIfNotExists (id : string)
| CallCreateContainerIfNotExists (id : string) (pk_path : string) (throughput : Z)
| CallReadAllItems
| CallReadItem (item : string) (partition_key : string)
| CallCreateItem (body : value)
| CallUpsertItem (body : value)
| CallDeleteItem (item : string) (partition_key : string)
| CallSecretClient (url : string)
| CallListPropertiesOfSecrets
| CallGetSecret (name : string)
| CallSetSecret (name : string) (v : value).

(** The two SDKs as an interface over a backend state [S]: each operation
    returns or raises, and may change the backend. *)
Class Azure (S : Type) : Type := {
  sdk_CosmosClient : string → S → outcome unit * S;
  sdk_create_database_if_not_exists : string → S → outcome unit * S;
  sdk_create_container_if_not_exists : string → string → Z → S → outcome unit * S;
  sdk_read_all_items : S → outcome (list value) * S;
  sdk_read_item : string → string → S → outcome value * S;
  sdk_create_item : value → S → outcome value * S;
  sdk_upsert_item : value → S → outcome value * S;
  sdk_delete_item : string → string → S → outcome unit * S;
  sdk_SecretClient : string → S → outcome unit * S;
  sdk_list_properties_of_secrets : S → outcome (list SecretProperties) * S;
  sdk_get_secret : string → S → outcome KeyVaultSecret * S;
  sdk_set_secret : string → value → S → outcome KeyVaultSecret * S
}.

(** ** The process state and the monad of the code *)

(** The module globals of app.py (lines 28-31). *)
Record Globals : Type := {
  cosmos_client : option CosmosClient;
  database : option DatabaseProxy;
  container : option ContainerProxy;
  keyvault_client : option SecretClient
}.

Inductive log_level : Type := INFO | WARNING | ERROR.

Record World (S : Type) : Type := {
  globals : Globals;
  backend : S;
  calls : list Call;
  logs : list (log_level * string)
}.
Arguments globals {S} w.
Arguments backend {S} w.
Arguments calls {S} w.
Arguments logs {S} w.

(** A computation that reads and writes the world and returns or raises. *)
Definition Py (S A : Type) : Type := World S → outcome A * World S.

#[global] Instance Py_ret {S} : MRet (Py S) := λ A a w, (Returns a, w).

#[global] Instance Py_bind {S} : MBind (Py S) := λ A B k m w,
  match m w with
  | (Returns a, w') => k a w'
  | (Raises e, w') => (Raises e, w')
  end.

Definition raise {S A} (e : exn) : Py S A := λ w, (Raises e, w).

(** [try: body except Exception as e: handler e]. *)
Definition try_except {S A} (body : Py S A) (handler : exn → Py S A) : Py S A :=
  λ w, match body w with
       | (Returns a, w') => (Returns a, w')
       | (Raises e, w') => handler e w'
       end.

Definition lift_outcome {S A} (o : outcome A) : Py S A := λ w, (o, w).

Definition read_globals {S} : Py S Globals := λ w, (Returns (globals w), w).

Definition write_globals {S} (f : Globals → Globals) : Py S unit := λ w,
  (Returns tt,
   {| globals := f (globals w); backend := backend w;
      calls := calls w; logs := logs w |}).

(** The world after one more log record. *)
Definition logged {S} (lvl : log_level) (msg : string) (w : World S) : World S :=
  {| globals := globals w; backend := backend w;
     calls := calls w; logs := logs w ++ [(lvl, msg)] |}.

Definition logger {S} (lvl : log_level) (msg : string) : Py S unit := λ w,
  (Returns tt, logged lvl msg w).

(** A call to a service: recorded, then performed on the backend state. *)
(** The world after call [c] has left the backend in state [s']. *)
Definition after_call {S} (c : Call) (s' : S) (w : World S) : World S :=
  {| globals := globals w; backend := s';
     calls := calls w ++ [c]; logs := logs w |}.

Definition invoke {S A} (c : Call) (op : S → outcome A * S) : Py S A := λ w,
  let '(r, s') := op (backend w) in (r, after_call c s' w).

(** Truthiness of the Python objects the code tests with [not]. *)
Definition is_set {A} (o : option A) : bool :=
  match o with Some _ => true | None => false end.

Definition str_truthy (o : option string) : bool :=
  match o with
  | Some s => negb (String.eqb s "")
  | None => false
  end.

(** ** Requests and responses *)

(** What a handler reads from [flask.request]: the query string
    ([request.args]) and the outcome of [request.get_json()], which returns
    the parsed body, returns [None], or raises (the framework decides which,
    from the content type and the bytes of the body). *)
Record Request : Type := {
  args : gmap string string;
  get_json : outcome value
}.

(** [(jsonify(body), status)]. *)
Record Response : Type := { body : value; status : Z }.

Definition dict (l : list (string * value)) : value := VDict (list_to_map l).

Definition error_response (msg : string) (code : Z) : Response :=
  {| body := dict [("error", VStr msg)]; status := code |}.

Definition timestamp (d : option datetime) : value :=
  match d with
  | Some t => VStr (isoformat t)
  | None => VNone
  end.

(** ** The application *)

Section App.
Context {S : Type} `{!Azure S}.

(** [os.environ] when the module is imported. *)
Variable environ : gmap string string.

(** Lines 19-24. *)
Definition COSMOS_ENDPOINT : option string := environ !! "COSMOS_ENDPOINT".
Definition DATABASE_NAME : string :=
  default "SampleDB" (environ !! "COSMOS_DATABASE_NAME").
Definition CONTAINER_NAME : string :=
  default "Items" (environ !! "COSMOS_CONTAINER_NAME").
Definition KEY_VAULT_URL : option string := environ !! "KEY_VAULT_URL".

(** Lines 34-62. *)
Definition initialize_cosmos_client : Py S bool :=
  try_except
    (if negb (str_truthy COSMOS_ENDPOINT) then
       raise (Exn ValueError "COSMOS_ENDPOINT environment variable is not set")
     else
       let endpoint := default "" COSMOS_ENDPOINT in
       logger INFO ("Connecting to Cosmos DB at " ++ endpoint);;
       invoke (CallCosmosClient endpoint) (sdk_CosmosClient endpoint);;
       write_globals (λ g,
         {| cosmos_client := Some {| client_endpoint := endpoint |};
            database := database g; container := container g;
            keyvault_client := keyvault_client g |});;
       invoke (CallCreateDatabaseIfNotExists DATABASE_NAME)
              (sdk_create_database_if_not_exists DATABASE_NAME);;
       write_globals (λ g,
         {| cosmos_client := cosmos_client g;
            database := Some {| database_id := DATABASE_NAME |};
            container := container g;
            keyvault_client := keyvault_client g |});;
       logger INFO ("Database '" ++ DATABASE_NAME ++ "' ready");;
       invoke (CallCreateContainerIfNotExists CONTAINER_NAME "/category" 400)
              (sdk_create_container_if_not_exists CONTAINER_NAME "/category" 400);;
       write_globals (λ g,
         {| cosmos_client := cosmos_client g; database := database g;
            container := Some {| container_id := CONTAINER_NAME;
                                 partition_key_path := "/category";
                                 offer_throughput := 400 |};
            keyvault_client := keyvault_client g |});;
       logger INFO ("Container '" ++ CONTAINER_NAME ++ "' ready");;
       mret true)
    (λ e,
       logger ERROR ("Failed to initialize Cosmos DB client: " ++ exn_str e);;
       mret false).

(** Lines 86-104 (the second definition, which replaces the one at lines
    65-83). *)
Definition initialize_keyvault_client : Py S bool :=
  try_except
    (if negb (str_truthy KEY_VAULT_URL) then
       logger WARNING "KEY_VAULT_URL environment variable is not set";;
       mret false
     else
       let url := default "" KEY_VAULT_URL in
       logger INFO ("Connecting to Key Vault at " ++ url);;
       invoke (CallSecretClient url) (sdk_SecretClient url);;
       write_globals (λ g,
         {| cosmos_client := cosmos_client g; database := database g;
            container := container g;
            keyvault_client := Some {| vault_url := url |} |});;
       logger INFO "Key Vault client initialized successfully";;
       mret true)
    (λ e,
       logger ERROR ("Failed to initialize Key Vault client: " ++ exn_str e);;
       mret false).

(** Lines 107-114. *)
Definition health_check : Py S Response :=
  g ← read_globals;
  mret {| body := dict [("status", VStr "healthy");
                        ("cosmos_connected", VBool (is_set (cosmos_client g)));
                        ("keyvault_connected", VBool (is_set (keyvault_client g)))];
          status := 200 |}.

(** Lines 117-131. *)
Definition get_items : Py S Response :=
  try_except
    (g ← read_globals;
     if negb (is_set (container g)) then
       mret (error_response "Cosmos DB not initialized" 500)
     else
       items ← invoke CallReadAllItems sdk_read_all_items;
       mret {| body := dict [("count", VInt (Z.of_nat (length items)));
                             ("items", VList items)];
               status := 200 |})
    (λ e,
       logger ERROR ("Error fetching items: " ++ exn_str e);;
       mret (error_response (exn_str e) 500)).

(** Lines 134-151. *)
Definition get_item (request : Request) (item_id : string) : Py S Response :=
  try_except
    (g ← read_globals;
     if negb (is_set (container g)) then
       mret (error_response "Cosmos DB not initialized" 500)
     else
       let category := args request !! "category" in
       if negb (str_truthy category) then
         mret (error_response "category query parameter is required" 400)
       else
         item ← invoke (CallReadItem item_id (default "" category))
                       (sdk_read_item item_id (default "" category));
         mret {| body := item; status := 200 |})
    (λ e,
       match exn_cls e with
       | CosmosResourceNotFoundError => mret (error_response "Item not found" 404)
       | _ =>
           logger ERROR ("Error fetching item: " ++ exn_str e);;
           mret (error_response (exn_str e) 500)
       end).

(** Lines 154-174. *)
Definition create_item (request : Request) : Py S Response :=
  try_except
    (g ← read_globals;
     if negb (is_set (container g)) then
       mret (error_response "Cosmos DB not initialized" 500)
     else
       data ← lift_outcome (get_json request);
       if negb (truthy data) then
         mret (error_response "Request body is required" 400)
       else
         has_id ← lift_outcome (py_in "id" data);
         has_category ← (if negb has_id then mret true
                         else lift_outcome (py_in "category" data));
         if negb has_id || negb has_category then
           mret (error_response "id and category fields are required" 400)
         else
           created_item ← invoke (CallCreateItem data) (sdk_create_item data);
           mret {| body := created_item; status := 201 |})
    (λ e,
       match exn_cls e with
       | CosmosResourceExistsError => mret (error_response "Item already exists" 409)
       | _ =>
           logger ERROR ("Error creating item: " ++ exn_str e);;
           mret (error_response (exn_str e) 500)
       end).

(** Lines 177-198. *)
Definition update_item (request : Request) (item_id : string) : Py S Response :=
  try_except
    (g ← read_globals;
     if negb (is_set (container g)) then
       mret (error_response "Cosmos DB not initialized" 500)
     else
       data ← lift_outcome (get_json request);
       if negb (truthy data) then
         mret (error_response "Request body is required" 400)
       else
         has_category ← lift_outcome (py_in "category" data);
         if negb has_category then
           mret (error_response "category field is required" 400)
         else
           data ← lift_outcome (py_setitem "id" (VStr item_id) data);
           updated_item ← invoke (CallUpsertItem data) (sdk_upsert_item data);
           mret {| body := updated_item; status := 200 |})
    (λ e,
       logger ERROR ("Error updating item: " ++ exn_str e);;
       mret (error_response (exn_str e) 500)).

(** Lines 201-218. *)
Definition delete_item (request : Request) (item_id : string) : Py S Response :=
  try_except
    (g ← read_globals;
     if negb (is_set (container g)) then
       mret (error_response "Cosmos DB not initialized" 500)
     else
       let category := args request !! "category" in
       if negb (str_truthy category) then
         mret (error_response "category query parameter is required" 400)
       else
         invoke (CallDeleteItem item_id (default "" category))
                (sdk_delete_item item_id (default "" category));;
         mret {| body := dict [("message", VStr "Item deleted successfully")];
                 status := 200 |})
    (λ e,
       match exn_cls e with
       | CosmosResourceNotFoundError => mret (error_response "Item not found" 404)
       | _ =>
           logger ERROR ("Error deleting item: " ++ exn_str e);;
           mret (error_response (exn_str e) 500)
       end).

(** Lines 221-237. *)
Definition list_secrets : Py S Response :=
  try_except
    (g ← read_globals;
     if negb (is_set (keyvault_client g)) then
       mret (error_response "Key Vault not initialized" 500)
     else
       secret_properties ← invoke CallListPropertiesOfSecrets
                                  sdk_list_properties_of_secrets;
       let secrets :=
         map (λ secret, dict [("name", VStr (sp_name secret));
                              ("enabled", VBool (sp_enabled secret))])
             secret_properties in
       mret {| body := dict [("count", VInt (Z.of_nat (length secrets)));
                             ("secrets", VList secrets)];
               status := 200 |})
    (λ e,
       logger ERROR ("Error listing secrets: " ++ exn_str e);;
       mret (error_response (exn_str e) 500)).

(** Lines 240-258. *)
Definition get_secret (secret_name' : string) : Py S Response :=
  try_except
    (g ← read_globals;
     if negb (is_set (keyvault_client g)) then
       mret (error_response "Key Vault not initialized" 500)
     else
       secret ← invoke (CallGetSecret secret_name') (sdk_get_secret secret_name');
       mret {| body := dict
                 [("name", VStr (secret_name secret));
                  ("value", VStr (secret_value secret));
                  ("enabled", VBool (sp_enabled (properties secret)));
                  ("created_on", timestamp (sp_created_on (properties secret)));
                  ("updated_on", timestamp (sp_updated_on (properties secret)))];
               status := 200 |})
    (λ e,
       logger ERROR ("Error getting secret '" ++ secret_name' ++ "': " ++ exn_str e);;
       mret (error_response (exn_str e) 500)).

(** Lines 261-281. *)
Definition set_secret (request : Request) (secret_name' : string) : Py S Response :=
  try_except
    (g ← read_globals;
     if negb (is_set (keyvault_client g)) then
       mret (error_response "Key Vault not initialized" 500)
     else
       data ← lift_outcome (get_json request);
       has_value ← (if negb (truthy data) then mret false
                    else lift_outcome (py_in "value" data));
       if negb (truthy data) || negb has_value then
         mret (error_response "Request body must contain 'value' field" 400)
       else
         v ← lift_outcome (py_getitem "value" data);
         secret ← invoke (CallSetSecret secret_name' v) (sdk_set_secret secret_name' v);
         mret {| body := dict
                   [("name", VStr (secret_name secret));
                    ("message", VStr "Secret created/updated successfully");
                    ("created_on", timestamp (sp_created_on (properties secret)))];
                 status := 201 |})
    (λ e,
       logger ERROR ("Error setting secret '" ++ secret_name' ++ "': " ++ exn_str e);;
       mret (error_response (exn_str e) 500)).

(** Lines 304-306: what importing the module does to a fresh process. *)
Definition startup : Py S bool :=
  initialize_cosmos_client;;
  initialize_keyvault_client.

End App.

(** The process before the module body has run: no handle, nothing called,
    nothing logged. *)
Definition fresh {S : Type} (s : S) : World S :=
  {| globals := {| cosmos_client := None; database := None;
                   container := None; keyvault_client := None |};
     backend := s; calls := []; logs := [] |}.

(** ** An in-memory model of the two services *)

Module Mem.

(** A partition key value: Cosmos DB keys on the JSON scalar found at the
    partition key path; a missing or non-scalar value is "undefined". *)
Inductive pk : Type :=
| PkUndefined
| PkNull
| PkBool (b : bool)
| PkNum (n : Z)
| PkStr (s : string).

#[global] Instance pk_eq_dec : EqDecision pk.
Proof. solve_decision. Defined.

#[global] Instance pk_countable : Countable pk.
Proof.
  refine (inj_countable'
    (λ k, match k with
          | PkUndefined => inl (inl false)
          | PkNull => inl (inl true)
          | PkBool b => inl (inr b)
          | PkNum n => inr (inl n)
          | PkStr s => inr (inr s)
          end)
    (λ x, match x with
          | inl (inl false) => PkUndefined
          | inl (inl true) => PkNull
          | inl (inr b) => PkBool b
          | inr (inl n) => PkNum n
          | inr (inr s) => PkStr s
          end) _).
  by intros [].
Defined.

Definition pk_of (v : option value) : pk :=
  match v with
  | Some VNone => PkNull
  | Some (VBool b) => PkBool b
  | Some (VInt n) => PkNum n
  | Some (VStr s) => PkStr s
  | _ => PkUndefined
  end.

(** The key of a document of a container partitioned on [/category]: its
    [id], which has to be a string, and its partition key value. *)
Definition doc_key (doc : value) : option (string * pk) :=
  match doc with
  | VDict m =>
      match m !! "id" with
      | Some (VStr i) => Some (i, pk_of (m !! "category"))
      | _ => None
      end
  | _ => None
  end.

(** The state of the services.  [faults] is what goes wrong outside the
    process (network, authorisation, throttling): a call it maps to an
    exception fails with it and changes nothing.  [stamp] is what the
    document store adds to a document when it writes it (the system
    properties [_rid], [_etag], [_ts], ...). *)
Record state : Type := {
  faults : Call → option exn;
  stamp : value → value;
  databases : gset string;
  containers : gmap string (string * Z);
  docs : gmap (string * pk) value;
  secrets : gmap string KeyVaultSecret;
  now : datetime
}.

Definition with_docs (d : gmap (string * pk) value) (s : state) : state :=
  {| faults := faults s; stamp := stamp s; databases := databases s;
     containers := containers s; docs := d; secrets := secrets s; now := now s |}.

Definition guarded {A} (c : Call) (op : state → outcome A * state)
    (s : state) : outcome A * state :=
  match faults s c with
  | Some e => (Raises e, s)
  | None => op s
  end.

Definition not_found : exn :=
  Exn CosmosResourceNotFoundError "(NotFound) Entity with the specified id does not exist in the system.".
Definition conflict : exn :=
  Exn CosmosResourceExistsError "(Conflict) Entity with the specified id already exists in the system.".
Definition bad_request : exn :=
  Exn CosmosHttpResponseError "(BadRequest) The input content is invalid.".
Definition secret_not_found (name : string) : exn :=
  Exn ResourceNotFoundError ("(SecretNotFound) A secret with (name/id) " ++ name ++ " was not found in this key vault.").
Definition bad_secret_value : exn :=
  Exn HttpResponseError "(BadParameter) The request body is invalid.".

Definition read_all_items (s : state) : outcome (list value) * state :=
  (Returns ((map_to_list (docs s)).*2), s).

Definition read_item (item partition_key : string) (s : state)
    : outcome value * state :=
  match docs s !! (item, PkStr partition_key) with
  | Some doc => (Returns doc, s)
  | None => (Raises not_found, s)
  end.

(** Strict create: fails on an existing key, never overwrites. *)
Definition create_item (body : value) (s : state) : outcome value * state :=
  match doc_key body with
  | None => (Raises bad_request, s)
  | Some k =>
      match docs s !! k with
      | Some _ => (Raises conflict, s)
      | None => (Returns (stamp s body), with_docs (<[k := stamp s body]> (docs s)) s)
      end
  end.

(** Insert if absent, replace if present. *)
Definition upsert_item (body : value) (s : state) : outcome value * state :=
  match doc_key body with
  | None => (Raises bad_request, s)
  | Some k => (Returns (stamp s body), with_docs (<[k := stamp s body]> (docs s)) s)
  end.

Definition delete_item (item partition_key : string) (s : state)
    : outcome unit * state :=
  match docs s !! (item, PkStr partition_key) with
  | Some _ => (Returns tt, with_docs (delete (item, PkStr partition_key) (docs s)) s)
  | None => (Raises not_found, s)
  end.

Definition create_database_if_not_exists (id : string) (s : state)
    : outcome unit * state :=
  (Returns tt,
   {| faults := faults s; stamp := stamp s; databases := {[id]} ∪ databases s;
      containers := containers s; docs := docs s; secrets := secrets s;
      now := now s |}).

Definition create_container_if_not_exists (id pk_path : string) (throughput : Z)
    (s : state) : outcome unit * state :=
  (Returns tt,
   {| faults := faults s; stamp := stamp s; databases := databases s;
      containers := match containers s !! id with
                    | Some _ => containers s
                    | None => <[id := (pk_path, throughput)]> (containers s)
                    end;
      docs := docs s; secrets := secrets s; now := now s |}).

Definition list_properties_of_secrets (s : state)
    : outcome (list SecretProperties) * state :=
  (Returns (properties <$> (map_to_list (secrets s)).*2), s).

Definition get_secret (name : string) (s : state) : outcome KeyVaultSecret * state :=
  match secrets s !! name with
  | Some sec => (Returns sec, s)
  | None => (Raises (secret_not_found name), s)
  end.

(** Writes the secret wholesale: a new value, enabled, stamped now. *)
Definition set_secret (name : string) (v : value) (s : state)
    : outcome KeyVaultSecret * state :=
  match v with
  | VStr text =>
      let sec := {| properties := {| sp_name := name; sp_enabled := true;
                                     sp_created_on := Some (now s);
                                     sp_updated_on := Some (now s) |};
                    secret_value := text |} in
      (Returns sec,
       {| faults := faults s; stamp := stamp s; databases := databases s;
          containers := containers s; docs := docs s;
          secrets := <[name := sec]> (secrets s); now := now s |})
  | _ => (Raises bad_secret_value, s)
  end.

#[global] Instance azure : Azure state := {
  sdk_CosmosClient endpoint :=
    guarded (CallCosmosClient endpoint) (λ s, (Returns tt, s));
  sdk_create_database_if_not_exists id :=
    guarded (CallCreateDatabaseIfNotExists id) (create_database_if_not_exists id);
  sdk_create_container_if_not_exists id pk_path throughput :=
    guarded (CallCreateContainerIfNotExists id pk_path throughput)
            (create_container_if_not_exists id pk_path throughput);
  sdk_read_all_items := guarded CallReadAllItems read_all_items;
  sdk_read_item item partition_key :=
    guarded (CallReadItem item partition_key) (read_item item partition_key);
  sdk_create_item body := guarded (CallCreateItem body) (create_item body);
  sdk_upsert_item body := guarded (CallUpsertItem body) (upsert_item body);
  sdk_delete_item item partition_key :=
    guarded (CallDeleteItem item partition_key) (delete_item item partition_key);
  sdk_SecretClient url := guarded (CallSecretClient url) (λ s, (Returns tt, s));
  sdk_list_properties_of_secrets :=
    guarded CallListPropertiesOfSecrets list_properties_of_secrets;
  sdk_get_secret name := guarded (CallGetSecret name) (get_secret name);
  sdk_set_secret name v := guarded (CallSetSecret name v) (set_secret name v)
}.

(** A service with no data and nothing going wrong. *)
Definition empty : state :=
  {| faults := λ _, None; stamp := λ doc, doc; databases := ∅; containers := ∅;
     docs := ∅; secrets := ∅;
     now := Datetime 2024 1 2 3 4 5 0 (Some 0) |}.

End Mem.

(** ** Reading responses *)

(** [v.get(key)] on a JSON object. *)
Definition field (key : string) (v : value) : option value :=
  match v with
  | VDict m => m !! key
  | _ => None
  end.

(** Readiness as the handlers test it. *)
Definition document_ready {S} (w : World S) : Prop :=
  is_set (container (globals w)) = true.
Definition secret_ready {S} (w : World S) : Prop :=
  is_set (keyvault_client (globals w)) = true.

(** What the list handler shows of a secret. *)
Definition listed (p : SecretProperties) : value :=
  dict [("name", VStr (sp_name p)); ("enabled", VBool (sp_enabled p))].

(** ** Initialisation, for the statements *)

Section Initialisation.
Context {S : Type} `{!Azure S}.
Variable environ : gmap string string.

Let endpoint : string := default "" (COSMOS_ENDPOINT environ).

(** The three calls of a successful initialisation, in order. *)
Definition initialisation_calls : list Call :=
  [CallCosmosClient endpoint;
   CallCreateDatabaseIfNotExists (DATABASE_NAME environ);
   CallCreateContainerIfNotExists (CONTAINER_NAME environ) "/category" 400].

(** Every call of the initialiser went through: the client object was
    built, then the database and then the container were created or
    found. *)
Definition backend_accepts (s : S) : Prop :=
  ∃ s1 s2 s3,
    sdk_CosmosClient endpoint s = (Returns tt, s1)
    ∧ sdk_create_database_if_not_exists (DATABASE_NAME environ) s1 = (Returns tt, s2)
    ∧ sdk_create_container_if_not_exists (CONTAINER_NAME environ) "/category" 400 s2
      = (Returns tt, s3).

Definition failure_logged (w w' : World S) : Prop :=
  ∃ earlier msg,
    logs w' = (logs w ++ earlier
               ++ [(ERROR, ("Failed to initialize Cosmos DB client: " ++ msg)%string)])%list.

End Initialisation.

(** ** Sample processes and requests *)

(** A process started against the in-memory services with both endpoints
    configured: both handles are ready. *)
Definition full_environ : gmap string string :=
  {[ "COSMOS_ENDPOINT" := "https://account.documents.azure.com:443/";
     "KEY_VAULT_URL" := "https://vault.vault.azure.net/" ]}.

Definition running (s : Mem.state) : World Mem.state :=
  (startup full_environ (fresh s)).2.

Definition json_request (data : value) : Request :=
  {| args := ∅; get_json := Returns data |}.

Definition query_request (category : string) : Request :=
  {| args := {[ "category" := category ]}; get_json := Returns VNone |}.

(** Services whose account answers, but where the identity of the
    application may not create databases. *)
Definition forbidden_database_creation : Mem.state :=
  {| Mem.faults := λ c, match c with
                        | CallCreateDatabaseIfNotExists _ =>
                            Some (Exn CosmosHttpResponseError "(Forbidden) Request blocked by Auth")
                        | _ => None
                        end;
     Mem.stamp := λ doc, doc; Mem.databases := ∅; Mem.containers := ∅;
     Mem.docs := ∅; Mem.secrets := ∅; Mem.now := Mem.now Mem.empty |}.

Definition cosmos_only_environ : gmap string string :=
  {[ "COSMOS_ENDPOINT" := "https://account.documents.azure.com:443/" ]}.

(** Services holding one document and two secrets. *)
Definition sample_secret (name text : string) (enabled : bool) : KeyVaultSecret :=
  {| properties := {| sp_name := name; sp_enabled := enabled;
                      sp_created_on := Some (Mem.now Mem.empty);
                      sp_updated_on := None |};
     secret_value := text |}.

Definition sample (api_key db_password : string) : Mem.state :=
  {| Mem.faults := λ _, None; Mem.stamp := λ doc, doc;
     Mem.databases := ∅; Mem.containers := ∅;
     Mem.docs := {[ ("a", Mem.PkStr "c")
                    := dict [("id", VStr "a"); ("category", VStr "c")] ]};
     Mem.secrets := {[ "api-key" := sample_secret "api-key" api_key true;
                       "db-password" := sample_secret "db-password" db_password false ]};
     Mem.now := Mem.now Mem.empty |}.

(** ** The routes *)

(** Lines 284-301. *)
Definition home {S : Type} : Py S Response :=
  mret {| body := dict
            [("name", VStr "Azure Container App - Cosmos DB & Key Vault Demo");
             ("description", VStr "Python app using User-Assigned Managed Identity");
             ("endpoints", dict
                [("GET /health", VStr "Health check");
                 ("GET /items", VStr "Get all items from Cosmos DB");
                 ("GET /items/<id>?category=<cat>", VStr "Get specific item");
                 ("POST /items", VStr "Create new item");
                 ("PUT /items/<id>", VStr "Update item");
                 ("DELETE /items/<id>?category=<cat>", VStr "Delete item");
                 ("GET /secrets", VStr "List all secrets from Key Vault");
                 ("GET /secrets/<name>", VStr "Get secret value");
                 ("POST /secrets/<name>", VStr "Set/update secret")])];
          status := 200 |}.

(** The ten [@app.route] lines: a method, a rule, and for the rules with a
    variable part the text that matched it. *)
Inductive Endpoint : Type :=
| GET_health
| GET_items
| GET_item (item_id : string)
| POST_items
| PUT_item (item_id : string)
| DELETE_item (item_id : string)
| GET_secrets
| GET_secret (secret_name' : string)
| POST_secret (secret_name' : string)
| GET_root.

(** The view function each route is bound to. *)
Definition view {S : Type} `{!Azure S} (endpoint : Endpoint) (request : Request)
    : Py S Response :=
  match endpoint with
  | GET_health => health_check
  | GET_items => get_items
  | GET_item item_id => get_item request item_id
  | POST_items => create_item request
  | PUT_item item_id => update_item request item_id
  | DELETE_item item_id => delete_item request item_id
  | GET_secrets => list_secrets
  | GET_secret name => get_secret name
  | POST_secret name => set_secret request name
  | GET_root => home
  end.

(** The status codes that occur in the [return] statements of each view. *)
Definition statuses (endpoint : Endpoint) : list Z :=
  match endpoint with
  | GET_health | GET_root => [200]
  | GET_items | GET_secrets | GET_secret _ => [200; 500]
  | GET_item _ | DELETE_item _ => [200; 400; 404; 500]
  | POST_items => [201; 400; 409; 500]
  | PUT_item _ => [200; 400; 500]
  | POST_secret _ => [201; 400; 500]
  end.

(** What [request.get_json()] raises, when it raises, is one of the HTTP
    errors of the framework (a malformed body, a wrong content type), never
    an error of a backend SDK. *)
Definition flask_request (request : Request) : Prop :=
  ∀ e, get_json request = Raises e → exn_cls e = HTTPException.

(** The call a view may make for a request, read off its body: which
    operation, and with which arguments taken from the route and from the
    request. *)
Definition expected_call (endpoint : Endpoint) (request : Request) (c : Call) : Prop :=
  match endpoint with
  | GET_health | GET_root => False
  | GET_items => c = CallReadAllItems
  | GET_item item_id =>
      ∃ category, args request !! "category" = Some category ∧ category ≠ ""
                  ∧ c = CallReadItem item_id category
  | DELETE_item item_id =>
      ∃ category, args request !! "category" = Some category ∧ category ≠ ""
                  ∧ c = CallDeleteItem item_id category
  | POST_items =>
      ∃ data, get_json request = Returns data
              ∧ py_in "id" data = Returns true
              ∧ py_in "category" data = Returns true
              ∧ c = CallCreateItem data
  | PUT_item item_id =>
      ∃ m, get_json request = Returns (VDict m) ∧ is_Some (m !! "category")
           ∧ c = CallUpsertItem (VDict (<["id" := VStr item_id]> m))
  | GET_secrets => c = CallListPropertiesOfSecrets
  | GET_secret name => c = CallGetSecret name
  | POST_secret name =>
      ∃ m v, get_json request = Returns (VDict m) ∧ m !! "value" = Some v
             ∧ c = CallSetSecret name v
  end.



(** The text each view puts in front of [str(e)] when it logs. *)
Definition operation_prefix (endpoint : Endpoint) : string :=
  match endpoint with
  | GET_items => "Error fetching items: "
  | GET_item _ => "Error fetching item: "
  | POST_items => "Error creating item: "
  | PUT_item _ => "Error updating item: "
  | DELETE_item _ => "Error deleting item: "
  | GET_secrets => "Error listing secrets: "
  | GET_secret name => "Error getting secret '" ++ name ++ "': "
  | POST_secret name => "Error setting secret '" ++ name ++ "': "
  | GET_health | GET_root => ""
  end.

(** Call [c], made in backend state [s], raised [e]. *)
Definition call_raises {S : Type} `{!Azure S} (c : Call) (s : S) (e : exn) : Prop :=
  match c with
  | CallCosmosClient endpoint => ∃ s', sdk_CosmosClient endpoint s = (Raises e, s')
  | CallCreateDatabaseIfNotExists id =>
      ∃ s', sdk_create_database_if_not_exists id s = (Raises e, s')
  | CallCreateContainerIfNotExists id pk_path throughput =>
      ∃ s', sdk_create_container_if_not_exists id pk_path throughput s = (Raises e, s')
  | CallReadAllItems => ∃ s', sdk_read_all_items s = (Raises e, s')
  | CallReadItem item partition_key =>
      ∃ s', sdk_read_item item partition_key s = (Raises e, s')
  | CallCreateItem body => ∃ s', sdk_create_item body s = (Raises e, s')
  | CallUpsertItem body => ∃ s', sdk_upsert_item body s = (Raises e, s')
  | CallDeleteItem item partition_key =>
      ∃ s', sdk_delete_item item partition_key s = (Raises e, s')
  | CallSecretClient url => ∃ s', sdk_SecretClient url s = (Raises e, s')
  | CallListPropertiesOfSecrets =>
      ∃ s', sdk_list_properties_of_secrets s = (Raises e, s')
  | CallGetSecret name => ∃ s', sdk_get_secret name s = (Raises e, s')
  | CallSetSecret name v => ∃ s', sdk_set_secret name v s = (Raises e, s')
  end.

(** One of the operators the views apply to the body ([in], [data[key]],
    [data[key] = x]) raised [e] on [data]. *)
Definition body_operator_raises (data : value) (e : exn) : Prop :=
  ∃ key, py_in key data = Raises e
         ∨ py_getitem key data = Raises e
         ∨ ∃ x, py_setitem key x data = Raises e.

(** ** Proof support *)

Ltac py_unfold :=
  unfold try_except, mbind, Py_bind, mret, Py_ret, read_globals, write_globals,
    lift_outcome, invoke, logger, raise in *.

(** Opens a world into its four components and its globals. *)
Ltac open_world w :=
  let g := fresh "g" in
  destruct w as [g ? ? ?]; destruct g as [? ? ? ?];
  unfold document_ready, secret_ready in *; simpl in *.

Create HintDb handlers.
#[global] Hint Unfold get_items get_item create_item update_item delete_item
  list_secrets get_secret set_secret health_check : handlers.

(** * Properties *)

Section Unready.
Context {S : Type} `{!Azure S}.

Lemma unready_documents (w : World S) (request : Request) (id : string) :
  container (globals w) = None →
  get_items w = (Returns (error_response "Cosmos DB not initialized" 500), w)
  ∧ get_item request id w
    = (Returns (error_response "Cosmos DB not initialized" 500), w)
  ∧ create_item request w
    = (Returns (error_response "Cosmos DB not initialized" 500), w)
  ∧ update_item request id w
    = (Returns (error_response "Cosmos DB not initialized" 500), w)
  ∧ delete_item request id w
    = (Returns (error_response "Cosmos DB not initialized" 500), w).
Proof.
  intros Hnone; open_world w; subst.
  repeat split; autounfold with handlers; py_unfold; reflexivity.
Qed.

Lemma unready_secrets (w : World S) (request : Request) (name : string) :
  keyvault_client (globals w) = None →
  list_secrets w = (Returns (error_response "Key Vault not initialized" 500), w)
  ∧ get_secret name w
    = (Returns (error_response "Key Vault not initialized" 500), w)
  ∧ set_secret request name w
    = (Returns (error_response "Key Vault not initialized" 500), w).
Proof.
  intros Hnone; open_world w; subst.
  repeat split; autounfold with handlers; py_unfold; reflexivity.
Qed.

(** C1. A handler whose backend handle is not ready answers 500 with a JSON
    error body and leaves the world as it found it: no call to the
    service, no log line, no change of state.  The answer is the same for
    every request, so the readiness test comes before any validation of
    the query string or of the body. *)
Theorem unready_handle_yields_500 (w : World S) (request : Request) (id : string) :
  (container (globals w) = None →
     get_items w = (Returns (error_response "Cosmos DB not initialized" 500), w)
     ∧ get_item request id w
       = (Returns (error_response "Cosmos DB not initialized" 500), w)
     ∧ create_item request w
       = (Returns (error_response "Cosmos DB not initialized" 500), w)
     ∧ update_item request id w
       = (Returns (error_response "Cosmos DB not initialized" 500), w)
     ∧ delete_item request id w
       = (Returns (error_response "Cosmos DB not initialized" 500), w))
  ∧ (keyvault_client (globals w) = None →
     list_secrets w = (Returns (error_response "Key Vault not initialized" 500), w)
     ∧ get_secret id w
       = (Returns (error_response "Key Vault not initialized" 500), w)
     ∧ set_secret request id w
       = (Returns (error_response "Key Vault not initialized" 500), w)).
Proof.
  split; [apply unready_documents | apply unready_secrets]; exact request.
Qed.

End Unready.

(** C1 at a request for an item with no [category] in the query string, on
    a process whose initialisation never ran: 500, not 400. *)
Lemma unready_handle_yields_500_witness :
  get_item {| args := ∅; get_json := Returns VNone |} "a" (fresh Mem.empty)
  = (Returns (error_response "Cosmos DB not initialized" 500), fresh Mem.empty).
Proof.
  apply (unready_handle_yields_500 (fresh Mem.empty)
           {| args := ∅; get_json := Returns VNone |} "a").
  reflexivity.
Defined.

Section Startup.
Context {S : Type} `{!Azure S}.
Variable environ : gmap string string.

(** The health endpoint answers 200 in every state, with one boolean per
    client object: whether [cosmos_client] and [keyvault_client] are set. *)
Lemma health_check_always_200 (w : World S) :
  health_check w
  = (Returns {| body := dict
                  [("status", VStr "healthy");
                   ("cosmos_connected", VBool (is_set (cosmos_client (globals w))));
                   ("keyvault_connected", VBool (is_set (keyvault_client (globals w))))];
                status := 200 |}, w).
Proof. reflexivity. Qed.

(** The Key Vault initialiser returns and touches none of the three
    Cosmos DB globals. *)
Lemma initialize_keyvault_client_keeps_cosmos (w : World S) :
  ∃ b w', initialize_keyvault_client environ w = (Returns b, w')
          ∧ cosmos_client (globals w') = cosmos_client (globals w)
          ∧ database (globals w') = database (globals w)
          ∧ container (globals w') = container (globals w).
Proof.
  open_world w. unfold initialize_keyvault_client. py_unfold.
  destruct (str_truthy (KEY_VAULT_URL environ)); simpl;
    [|by do 2 eexists; repeat split].
  destruct (sdk_SecretClient _ _) as [[[]|e] s']; simpl;
    by do 2 eexists; repeat split.
Qed.

(** C2, where the code departs from it.  When the client object can be
    built but the database cannot be created (the second call of the
    initialiser raises), the initialiser reports failure and leaves
    [container] unset, so the document handlers answer 500; the health
    endpoint looks at [cosmos_client], which was already assigned, and
    reports the document store as connected. *)
Theorem health_connected_while_documents_unready (s s1 s2 : S) (e : exn) :
  str_truthy (COSMOS_ENDPOINT environ) = true →
  sdk_CosmosClient (default "" (COSMOS_ENDPOINT environ)) s = (Returns tt, s1) →
  sdk_create_database_if_not_exists (DATABASE_NAME environ) s1 = (Raises e, s2) →
  ∃ w1 b w' r,
    initialize_cosmos_client environ (fresh s) = (Returns false, w1)
    ∧ startup environ (fresh s) = (Returns b, w')
    ∧ health_check w' = (Returns r, w')
    ∧ status r = 200
    ∧ field "cosmos_connected" (body r) = Some (VBool true)
    ∧ get_items w' = (Returns (error_response "Cosmos DB not initialized" 500), w').
Proof.
  intros Hendpoint Hclient Hdatabase.
  assert (∃ w1, initialize_cosmos_client environ (fresh s) = (Returns false, w1)
                ∧ is_set (cosmos_client (globals w1)) = true
                ∧ container (globals w1) = None) as (w1 & Hinit & Hcc & Hct).
  { unfold initialize_cosmos_client. py_unfold. rewrite Hendpoint. simpl.
    rewrite Hclient. simpl. rewrite Hdatabase. simpl.
    by eexists; repeat split. }
  destruct (initialize_keyvault_client_keeps_cosmos w1)
    as (b & w' & Hkv & Hcc' & _ & Hct').
  exists w1, b, w', {| body := dict
                  [("status", VStr "healthy");
                   ("cosmos_connected", VBool (is_set (cosmos_client (globals w'))));
                   ("keyvault_connected", VBool (is_set (keyvault_client (globals w'))))];
                status := 200 |}.
  split; [done|]. split.
  { unfold startup. unfold mbind at 1, Py_bind at 1. by rewrite Hinit. }
  split; [apply health_check_always_200|]. split; [done|]. split.
  { rewrite Hcc', Hcc. reflexivity. }
  rewrite Hct in Hct'. clear -Hct'. open_world w'. subst.
  unfold get_items. py_unfold. reflexivity.
Qed.

(** The converse direction does hold after start-up: when the document
    handlers are ready, the health endpoint says connected. *)
Lemma ready_implies_health_connected (s : S) (b : bool) (w' : World S) :
  startup environ (fresh s) = (Returns b, w') →
  document_ready w' →
  is_set (cosmos_client (globals w')) = true.
Proof.
  unfold startup, document_ready. unfold mbind at 1, Py_bind at 1.
  destruct (initialize_cosmos_client environ (fresh s)) as [[b1|e1] w1] eqn:Hinit;
    [|discriminate].
  destruct (initialize_keyvault_client_keeps_cosmos w1)
    as (b2 & w2 & Hkv & Hcc & _ & Hct).
  rewrite Hkv. intros [= <- <-]. rewrite Hcc, Hct. clear Hkv Hcc Hct.
  revert Hinit. unfold initialize_cosmos_client. py_unfold. simpl.
  destruct (str_truthy _); simpl; [|by intros [= <- <-]].
  destruct (sdk_CosmosClient _ _) as [[[]|?] ?]; simpl; [|by intros [= <- <-]].
  destruct (sdk_create_database_if_not_exists _ _) as [[[]|?] ?]; simpl;
    [|by intros [= <- <-]].
  destruct (sdk_create_container_if_not_exists _ _ _ _) as [[[]|?] ?]; simpl;
    by intros [= <- <-].
Qed.

End Startup.

(** C2 on the in-memory services, with database creation forbidden. *)
Lemma health_connected_while_documents_unready_witness :
  ∃ w1 b w' r,
    initialize_cosmos_client cosmos_only_environ (fresh forbidden_database_creation)
    = (Returns false, w1)
    ∧ startup cosmos_only_environ (fresh forbidden_database_creation) = (Returns b, w')
    ∧ health_check w' = (Returns r, w')
    ∧ status r = 200
    ∧ field "cosmos_connected" (body r) = Some (VBool true)
    ∧ get_items w' = (Returns (error_response "Cosmos DB not initialized" 500), w').
Proof.
  apply (health_connected_while_documents_unready cosmos_only_environ
           forbidden_database_creation forbidden_database_creation
           forbidden_database_creation
           (Exn CosmosHttpResponseError "(Forbidden) Request blocked by Auth"));
    reflexivity.
Defined.

(** C8. The initialiser always returns a boolean, whatever the configuration
    and the services do; it never raises.
    - With no endpoint, or an empty one, it returns [False] without a call.
    - It returns [True] exactly when all three calls went through, so any
      error of a service makes it return [False].
    - When it returns [False] it has logged the failure and [container], the
      handle the document handlers test, is what it was before: unset, in a
      process that is starting.
    - When it returns [True] it has made the three calls, creating database
      and container if they do not exist, with the partition key path
      [/category] and a throughput of 400, and [container] is set.
    On the in-memory services with nothing going wrong, the database and
    the container exist afterwards, a container that was missing has been
    declared with [/category] and 400, no document was touched, and running
    the initialiser again changes nothing. *)
Theorem initialize_cosmos_client_never_raises (environ : gmap string string) :
  (∀ (S : Type) (az : Azure S) (w : World S),
     ∃ b w',
       initialize_cosmos_client environ w = (Returns b, w')
       ∧ (str_truthy (COSMOS_ENDPOINT environ) = false →
            b = false ∧ globals w' = globals w ∧ backend w' = backend w
            ∧ calls w' = calls w)
       ∧ (b = true ↔
            str_truthy (COSMOS_ENDPOINT environ) = true
            ∧ backend_accepts environ (backend w))
       ∧ (b = false →
            container (globals w') = container (globals w) ∧ failure_logged w w')
       ∧ (b = true →
            calls w' = (calls w ++ initialisation_calls environ)%list
            ∧ container (globals w')
              = Some {| container_id := CONTAINER_NAME environ;
                        partition_key_path := "/category";
                        offer_throughput := 400 |}))
  ∧ (∀ w : World Mem.state,
       str_truthy (COSMOS_ENDPOINT environ) = true →
       (∀ c, c ∈ initialisation_calls environ → Mem.faults (backend w) c = None) →
       ∃ w' w'',
         initialize_cosmos_client environ w = (Returns true, w')
         ∧ DATABASE_NAME environ ∈ Mem.databases (backend w')
         ∧ is_Some (Mem.containers (backend w') !! CONTAINER_NAME environ)
         ∧ (Mem.containers (backend w) !! CONTAINER_NAME environ = None →
              Mem.containers (backend w') !! CONTAINER_NAME environ
              = Some ("/category", 400))
         ∧ Mem.docs (backend w') = Mem.docs (backend w)
         ∧ initialize_cosmos_client environ w' = (Returns true, w'')
         ∧ backend w'' = backend w').
Proof.
  split.
  - intros S az w.
    unfold backend_accepts, failure_logged, initialisation_calls.
    open_world w. unfold initialize_cosmos_client. py_unfold.
    destruct (str_truthy (COSMOS_ENDPOINT environ)) eqn:Hendpoint; simpl.
    2:{ do 2 eexists. split; [reflexivity|]. simpl.
        repeat split; try done; try (by intros (? & _)).
        by exists [], "COSMOS_ENDPOINT environment variable is not set". }
    destruct (sdk_CosmosClient _ backend0) as [[[]|e1] s1] eqn:H1; simpl.
    2:{ do 2 eexists. split; [reflexivity|]. simpl.
        repeat split; try done.
        - intros (_ & ? & ? & ? & ? & _). congruence.
        - eexists [_], _. by rewrite <- !app_assoc. }
    destruct (sdk_create_database_if_not_exists _ s1) as [[[]|e2] s2] eqn:H2; simpl.
    2:{ do 2 eexists. split; [reflexivity|]. simpl.
        repeat split; try done.
        - intros (_ & ? & ? & ? & ? & ? & _). congruence.
        - eexists [_], _. by rewrite <- !app_assoc. }
    destruct (sdk_create_container_if_not_exists _ _ _ s2) as [[[]|e3] s3] eqn:H3; simpl.
    2:{ do 2 eexists. split; [reflexivity|]. simpl.
        repeat split; try done.
        - intros (_ & ? & ? & ? & ? & ? & ?). congruence.
        - eexists [_; _], _. by rewrite <- !app_assoc. }
    do 2 eexists. split; [reflexivity|]. simpl.
    repeat split; try done.
    + by exists s1, s2, s3.
    + by rewrite <- !app_assoc.
  - intros w Hendpoint Hok.
    assert (Mem.faults (backend w)
              (CallCosmosClient (default "" (COSMOS_ENDPOINT environ))) = None) as H1
      by (apply Hok; unfold initialisation_calls; set_solver).
    assert (Mem.faults (backend w)
              (CallCreateDatabaseIfNotExists (DATABASE_NAME environ)) = None) as H2
      by (apply Hok; unfold initialisation_calls; set_solver).
    assert (Mem.faults (backend w)
              (CallCreateContainerIfNotExists (CONTAINER_NAME environ) "/category" 400)
            = None) as H3
      by (apply Hok; unfold initialisation_calls; set_solver).
    clear Hok. open_world w.
    unfold initialize_cosmos_client. py_unfold. rewrite Hendpoint. simpl.
    unfold Mem.guarded. simpl.
    repeat (first [rewrite H1 | rewrite H2 | rewrite H3]; simpl).
    do 2 eexists. split; [reflexivity|]. simpl.
    split; [set_solver|]. split.
    { destruct (Mem.containers backend0 !! CONTAINER_NAME environ) eqn:Hc;
        [by rewrite Hc | by rewrite lookup_insert_eq]. }
    split. { intros ->. by rewrite lookup_insert_eq. }
    split; [done|].
    repeat (first [rewrite H1 | rewrite H2 | rewrite H3]; simpl).
    split; [reflexivity|]. simpl.
    destruct backend0 as [fl st dbs cts ds ss nw]; simpl in *. f_equal.
    + by rewrite (assoc_L (∪)), (idemp_L (∪)).
    + destruct (cts !! CONTAINER_NAME environ) eqn:Hc.
      * by rewrite Hc.
      * by rewrite lookup_insert_eq.
Qed.

(** C8 on the in-memory services: a first start creates database and
    container, a second one finds them. *)
Lemma initialize_cosmos_client_never_raises_witness :
  ∃ w' w'',
    initialize_cosmos_client cosmos_only_environ (fresh Mem.empty) = (Returns true, w')
    ∧ DATABASE_NAME cosmos_only_environ ∈ Mem.databases (backend w')
    ∧ initialize_cosmos_client cosmos_only_environ w' = (Returns true, w'')
    ∧ backend w'' = backend w'.
Proof.
  destruct (proj2 (initialize_cosmos_client_never_raises cosmos_only_environ)
              (fresh Mem.empty) eq_refl (λ _ _, eq_refl))
    as (w' & w'' & H1 & H2 & _ & _ & _ & H3 & H4).
  exists w', w''. exact (conj H1 (conj H2 (conj H3 H4))).
Defined.

(** ** Document handlers *)

Lemma truthy_dict (m : gmap string value) (key : string) :
  is_Some (m !! key) → truthy (VDict m) = true.
Proof.
  intros Hkey. simpl. apply negb_true_iff, Nat.eqb_neq.
  by eapply map_size_ne_0_lookup_2.
Qed.

Lemma ready_container (g : Globals) :
  is_set (container g) = true → ∃ c, container g = Some c.
Proof. destruct (container g); [eauto | discriminate]. Qed.

Section Documents.
Context {S : Type} `{!Azure S}.

Implicit Types (w : World S) (request : Request) (m : gmap string value).

Ltac ready w H :=
  let c := fresh "c" in
  destruct (ready_container _ H) as [c ?];
  open_world w; subst; py_unfold; simpl.

(** A body that [get_json] returns and that is false in a test ([None] for
    the JSON [null], [{}], [[]], [0], the empty string, [false]) is refused
    before any call. *)
Lemma create_item_requires_body w request data :
  document_ready w →
  get_json request = Returns data →
  truthy data = false →
  create_item request w
  = (Returns (error_response "Request body is required" 400), w).
Proof.
  intros Hready Hjson Hfalse. unfold create_item. ready w Hready.
  rewrite Hjson. simpl. by rewrite Hfalse.
Qed.

(** A JSON object without [id] or without [category] is refused before any
    call. *)
Lemma create_item_requires_fields w request m :
  document_ready w →
  get_json request = Returns (VDict m) →
  m !! "id" = None ∨ m !! "category" = None →
  ∃ msg, create_item request w = (Returns (error_response msg 400), w).
Proof.
  intros Hready Hjson Hmissing. unfold create_item. ready w Hready.
  rewrite Hjson. simpl.
  destruct (size m =? 0)%nat; simpl; [by eexists|].
  destruct (m !! "id") as [i|] eqn:Hid.
  - destruct Hmissing as [|Hcat]; [done|].
    rewrite bool_decide_true by eauto. simpl. rewrite Hcat.
    rewrite bool_decide_false by (by intros [? ?]). simpl. by eexists.
  - rewrite bool_decide_false by (by intros [? ?]). simpl. by eexists.
Qed.

(** With both fields present the handler makes one call, a strict create
    of the body as it came, and maps what the store answers: the created
    item to 201, "already exists" to 409, any other error to a logged 500. *)
Lemma create_item_calls_backend w request m :
  document_ready w →
  get_json request = Returns (VDict m) →
  is_Some (m !! "id") → is_Some (m !! "category") →
  create_item request w
  = match sdk_create_item (VDict m) (backend w) with
    | (Returns created, s') =>
        (Returns {| body := created; status := 201 |},
         after_call (CallCreateItem (VDict m)) s' w)
    | (Raises e, s') =>
        match exn_cls e with
        | CosmosResourceExistsError =>
            (Returns (error_response "Item already exists" 409),
             after_call (CallCreateItem (VDict m)) s' w)
        | _ =>
            (Returns (error_response (exn_str e) 500),
             logged ERROR ("Error creating item: " ++ exn_str e)
               (after_call (CallCreateItem (VDict m)) s' w))
        end
    end.
Proof.
  intros Hready Hjson Hid Hcat. unfold create_item.
  pose proof (truthy_dict m "id" Hid) as Htruthy. simpl in Htruthy.
  ready w Hready. rewrite Hjson. simpl. rewrite Htruthy. simpl.
  rewrite !bool_decide_true by done. simpl.
  destruct (sdk_create_item _ _) as [[created|e] s']; simpl; [done|].
  by destruct (exn_cls e).
Qed.

(** The update handler overwrites [id] with the id of the path, makes one
    call, an upsert of that body, and maps the item the store returns to
    200 and any error to a logged 500. *)
Lemma update_item_calls_backend w request item_id m :
  document_ready w →
  get_json request = Returns (VDict m) →
  is_Some (m !! "category") →
  update_item request item_id w
  = let data := VDict (<["id" := VStr item_id]> m) in
    match sdk_upsert_item data (backend w) with
    | (Returns updated, s') =>
        (Returns {| body := updated; status := 200 |},
         after_call (CallUpsertItem data) s' w)
    | (Raises e, s') =>
        (Returns (error_response (exn_str e) 500),
         logged ERROR ("Error updating item: " ++ exn_str e)
           (after_call (CallUpsertItem data) s' w))
    end.
Proof.
  intros Hready Hjson Hcat. unfold update_item.
  pose proof (truthy_dict m "category" Hcat) as Htruthy. simpl in Htruthy.
  ready w Hready. rewrite Hjson. simpl. rewrite Htruthy. simpl.
  rewrite bool_decide_true by done. simpl.
  by destruct (sdk_upsert_item _ _) as [[updated|e] s'].
Qed.


(** With a category the read handler makes one call, a point read, and
    maps the item to 200, "not found" to 404, any other error to a logged
    500. *)
Lemma get_item_calls_backend w request item_id category :
  document_ready w →
  args request !! "category" = Some category → category ≠ "" →
  get_item request item_id w
  = match sdk_read_item item_id category (backend w) with
    | (Returns item, s') =>
        (Returns {| body := item; status := 200 |},
         after_call (CallReadItem item_id category) s' w)
    | (Raises e, s') =>
        match exn_cls e with
        | CosmosResourceNotFoundError =>
            (Returns (error_response "Item not found" 404),
             after_call (CallReadItem item_id category) s' w)
        | _ =>
            (Returns (error_response (exn_str e) 500),
             logged ERROR ("Error fetching item: " ++ exn_str e)
               (after_call (CallReadItem item_id category) s' w))
        end
    end.
Proof.
  intros Hready Hcat Hne. unfold get_item. ready w Hready. rewrite Hcat. simpl.
  apply String.eqb_neq in Hne. rewrite Hne. simpl.
  destruct (sdk_read_item _ _ _) as [[item|e] s']; simpl; [done|].
  by destruct (exn_cls e).
Qed.

(** The same for the delete handler; its 200 carries a message and no
    item. *)
Lemma delete_item_calls_backend w request item_id category :
  document_ready w →
  args request !! "category" = Some category → category ≠ "" →
  delete_item request item_id w
  = match sdk_delete_item item_id category (backend w) with
    | (Returns _, s') =>
        (Returns {| body := dict [("message", VStr "Item deleted successfully")];
                    status := 200 |},
         after_call (CallDeleteItem item_id category) s' w)
    | (Raises e, s') =>
        match exn_cls e with
        | CosmosResourceNotFoundError =>
            (Returns (error_response "Item not found" 404),
             after_call (CallDeleteItem item_id category) s' w)
        | _ =>
            (Returns (error_response (exn_str e) 500),
             logged ERROR ("Error deleting item: " ++ exn_str e)
               (after_call (CallDeleteItem item_id category) s' w))
        end
    end.
Proof.
  intros Hready Hcat Hne. unfold delete_item. ready w Hready. rewrite Hcat. simpl.
  apply String.eqb_neq in Hne. rewrite Hne. simpl.
  destruct (sdk_delete_item _ _ _) as [[[]|e] s']; simpl; [done|].
  by destruct (exn_cls e).
Qed.

End Documents.

(** A body that is JSON but not an object: the body [5] has no [id] field,
    and the answer is 500, not 400.  The test ['id' not in data] raises
    [TypeError] on an [int], and the handler's catch-all turns that into a
    500. *)
Lemma create_item_scalar_body_counterexample :
  document_ready (running Mem.empty)
  ∧ field "id" (VInt 5) = None
  ∧ ∃ r w',
      create_item (json_request (VInt 5)) (running Mem.empty) = (Returns r, w')
      ∧ status r = 500
      ∧ status r ≠ 400
      ∧ calls w' = calls (running Mem.empty).
Proof.
  split; [vm_compute; reflexivity|]. split; [reflexivity|].
  exists (error_response "argument of type 'int' is not iterable" 500),
         (logged ERROR "Error creating item: argument of type 'int' is not iterable"
            (running Mem.empty)).
  split; [vm_compute; reflexivity|]. split; [reflexivity|].
  split; [discriminate|reflexivity].
Qed.

(** What the create handler does with a body that [get_json] has returned.
    For every backend and every ready process:
    - a body that is false in a test (the JSON [null], [{}], [0], ...), and
      an object without [id] or without [category], get 400 and the world is
      unchanged (no call);
    - otherwise the handler makes a single call, a strict create of the
      body; the created item comes back as 201, and the store's "already
      exists" as 409.
    On the in-memory store: an item already stored under the same
    (id, category) gives 409 and the store keeps what it had; a new one gives
    201 with the created item, and posting it a second time gives 409. *)
Theorem create_item_validates_then_creates :
  (∀ (S : Type) (az : Azure S) (w : World S) (request : Request),
     document_ready w →
     (∀ data, get_json request = Returns data → truthy data = false →
        create_item request w
        = (Returns (error_response "Request body is required" 400), w))
     ∧ (∀ m, get_json request = Returns (VDict m) →
          m !! "id" = None ∨ m !! "category" = None →
          ∃ msg, create_item request w = (Returns (error_response msg 400), w))
     ∧ (∀ m s', get_json request = Returns (VDict m) →
          is_Some (m !! "id") → is_Some (m !! "category") →
          (∀ created,
             sdk_create_item (VDict m) (backend w) = (Returns created, s') →
             create_item request w
             = (Returns {| body := created; status := 201 |},
                after_call (CallCreateItem (VDict m)) s' w))
          ∧ (∀ e,
               sdk_create_item (VDict m) (backend w) = (Raises e, s') →
               exn_cls e = CosmosResourceExistsError →
               create_item request w
               = (Returns (error_response "Item already exists" 409),
                  after_call (CallCreateItem (VDict m)) s' w))))
  ∧ (∀ (w : World Mem.state) (request : Request) m key,
       document_ready w →
       get_json request = Returns (VDict m) →
       is_Some (m !! "category") →
       Mem.doc_key (VDict m) = Some key →
       Mem.faults (backend w) (CallCreateItem (VDict m)) = None →
       (∀ existing, Mem.docs (backend w) !! key = Some existing →
          ∃ w', create_item request w
                = (Returns (error_response "Item already exists" 409), w')
                ∧ Mem.docs (backend w') = Mem.docs (backend w))
       ∧ (Mem.docs (backend w) !! key = None →
            ∃ w' w'',
              create_item request w
              = (Returns {| body := Mem.stamp (backend w) (VDict m); status := 201 |},
                 w')
              ∧ Mem.docs (backend w')
                = <[key := Mem.stamp (backend w) (VDict m)]> (Mem.docs (backend w))
              ∧ create_item request w'
                = (Returns (error_response "Item already exists" 409), w'')
              ∧ Mem.docs (backend w'') = Mem.docs (backend w'))).
Proof.
  split.
  - intros S az w request Hready. split; [|split].
    + intros. by apply create_item_requires_body with data.
    + intros. by apply create_item_requires_fields with m.
    + intros m s' Hjson Hid Hcat.
      rewrite (create_item_calls_backend w request m) by done.
      split.
      * by intros created ->.
      * by intros e -> ->.
  - intros w request m key Hready Hjson Hcat Hkey Hfault.
    assert (is_Some (m !! "id")) as Hid.
    { simpl in Hkey. destruct (m !! "id") as [[]|]; by eauto. }
    rewrite (create_item_calls_backend w request m) by done.
    simpl. unfold Mem.guarded, Mem.create_item. rewrite Hfault, Hkey. split.
    + intros existing ->. by eexists.
    + intros Hnew. rewrite Hnew. do 2 eexists. split; [reflexivity|].
      split; [reflexivity|].
      rewrite (create_item_calls_backend _ request m) by done.
      simpl. unfold Mem.guarded, Mem.create_item.
      cbn [backend after_call Mem.faults Mem.with_docs Mem.docs].
      rewrite Hfault, Hkey, lookup_insert_eq. by split.
Qed.

(** On the store, at a single item posted twice. *)
Lemma create_item_validates_then_creates_witness :
  let item := dict [("id", VStr "a"); ("category", VStr "c")] in
  ∃ w' w'',
    create_item (json_request item) (running Mem.empty)
    = (Returns {| body := item; status := 201 |}, w')
    ∧ create_item (json_request item) w'
      = (Returns (error_response "Item already exists" 409), w'').
Proof.
  intros item.
  assert (document_ready (running Mem.empty)) as Hready
    by (vm_compute; reflexivity).
  assert (Mem.docs (backend (running Mem.empty)) !! ("a", Mem.PkStr "c") = None)
    as Hnew by (vm_compute; reflexivity).
  destruct (proj2 (proj2 create_item_validates_then_creates
              (running Mem.empty) (json_request item)
              (list_to_map [("id", VStr "a"); ("category", VStr "c")])
              ("a", Mem.PkStr "c") Hready eq_refl (mk_is_Some _ _ eq_refl)
              eq_refl eq_refl) Hnew)
    as (w' & w'' & H1 & _ & H2 & _).
  exists w', w''. exact (conj H1 H2).
Defined.

(** C3, where the code departs from it.  The handler means to answer 400
    "Request body is required" to a request without a body, but it reads
    the body with [request.get_json()] inside its [try] block, and for an
    absent or unreadable body that call raises one of the HTTP errors of
    the framework.  The catch-all takes it: the answer is a logged 500 with
    the text of that error, and the test [if not data] is never reached.
    The same catch-all answers 500 to a body that is a number other than
    zero, which has no [id] field: the test ['id' not in data] raises on
    it. *)
Theorem create_item_without_body_is_500 {S : Type} `{!Azure S} (w : World S)
    (request : Request) :
  document_ready w →
  (∀ e, get_json request = Raises e → exn_cls e = HTTPException →
     create_item request w
     = (Returns (error_response (exn_str e) 500),
        logged ERROR ("Error creating item: " ++ exn_str e) w))
  ∧ (∀ n, get_json request = Returns (VInt n) → n ≠ 0 →
       ∃ r w', create_item request w = (Returns r, w')
               ∧ status r = 500 ∧ calls w' = calls w).
Proof.
  intros Hready. destruct (ready_container _ Hready) as [c Hc].
  unfold create_item. open_world w. subst. py_unfold. simpl. split.
  - intros e -> Hcls. simpl. by rewrite Hcls.
  - intros n -> Hn. simpl. apply Z.eqb_neq in Hn. rewrite Hn. simpl.
    by do 2 eexists.
Qed.

(** C3 at a POST with no body and no JSON content type. *)
Lemma create_item_without_body_is_500_witness :
  let e := Exn HTTPException "415 Unsupported Media Type: Did not attempt to load JSON data because the request Content-Type was not 'application/json'." in
  create_item {| args := ∅; get_json := Raises e |} (running Mem.empty)
  = (Returns (error_response (exn_str e) 500),
     logged ERROR ("Error creating item: " ++ exn_str e) (running Mem.empty)).
Proof.
  intros e.
  assert (document_ready (running Mem.empty)) as Hready by (vm_compute; reflexivity).
  exact (proj1 (create_item_without_body_is_500 (running Mem.empty)
                  {| args := ∅; get_json := Raises e |} Hready) e eq_refl eq_refl).
Defined.

(** C4. For every backend and every ready process, a PUT whose body is an
    object with a [category] makes a single call, an upsert of the body
    with [id] replaced by the id of the path, and answers 200 with the item
    the store returns.  On the in-memory store that call always succeeds,
    whether or not the key was there: afterwards the store holds the written
    item under (path id, category), in place of the one it may have held,
    and the [id] of what was written is the id of the path even if the body
    carried another. *)
Theorem update_item_is_upsert :
  (∀ (S : Type) (az : Azure S) (w : World S) (request : Request) item_id m
     updated s',
     document_ready w →
     get_json request = Returns (VDict m) →
     is_Some (m !! "category") →
     sdk_upsert_item (VDict (<["id" := VStr item_id]> m)) (backend w)
     = (Returns updated, s') →
     update_item request item_id w
     = (Returns {| body := updated; status := 200 |},
        after_call (CallUpsertItem (VDict (<["id" := VStr item_id]> m))) s' w))
  ∧ (∀ (w : World Mem.state) (request : Request) item_id m,
       let data := VDict (<["id" := VStr item_id]> m) in
       let key := (item_id, Mem.pk_of (m !! "category")) in
       document_ready w →
       get_json request = Returns (VDict m) →
       is_Some (m !! "category") →
       Mem.faults (backend w) (CallUpsertItem data) = None →
       ∃ w',
         update_item request item_id w
         = (Returns {| body := Mem.stamp (backend w) data; status := 200 |}, w')
         ∧ Mem.docs (backend w')
           = <[key := Mem.stamp (backend w) data]> (Mem.docs (backend w))
         ∧ field "id" data = Some (VStr item_id)
         ∧ (field "id" (Mem.stamp (backend w) data) = field "id" data →
              ∃ stored, Mem.docs (backend w') !! key = Some stored
                        ∧ field "id" stored = Some (VStr item_id))).
Proof.
  split.
  - intros S az w request item_id m updated s' Hready Hjson Hcat Hupsert.
    rewrite (update_item_calls_backend w request item_id m) by done.
    simpl. by rewrite Hupsert.
  - intros w request item_id m data key Hready Hjson Hcat Hfault.
    rewrite (update_item_calls_backend w request item_id m) by done.
    fold data. simpl. unfold Mem.guarded, Mem.upsert_item. rewrite Hfault.
    assert (Mem.doc_key data = Some key) as ->.
    { unfold data, key. simpl. rewrite lookup_insert_eq.
      by rewrite lookup_insert_ne. }
    eexists. split; [reflexivity|]. split; [reflexivity|]. split.
    { unfold data. simpl. by rewrite lookup_insert_eq. }
    intros Hstamp. eexists. simpl. rewrite lookup_insert_eq.
    split; [reflexivity|]. rewrite Hstamp. unfold data. simpl.
    by rewrite lookup_insert_eq.
Qed.

(** C4 at an update of an item that does not exist, with another [id] in the
    body than in the path. *)
Lemma update_item_is_upsert_witness :
  let sent := dict [("id", VStr "other"); ("category", VStr "c")] in
  ∃ w',
    update_item (json_request sent) "a" (running Mem.empty)
    = (Returns {| body := dict [("id", VStr "a"); ("category", VStr "c")];
                  status := 200 |}, w')
    ∧ Mem.docs (backend w') !! ("a", Mem.PkStr "c")
      = Some (dict [("id", VStr "a"); ("category", VStr "c")]).
Proof.
  intros sent.
  assert (document_ready (running Mem.empty)) as Hready
    by (vm_compute; reflexivity).
  destruct (proj2 update_item_is_upsert (running Mem.empty) (json_request sent)
              "a" (list_to_map [("id", VStr "other"); ("category", VStr "c")])
              Hready eq_refl (mk_is_Some _ _ eq_refl) eq_refl)
    as (w' & H1 & H2 & _).
  exists w'. split.
  - rewrite H1. vm_compute. reflexivity.
  - rewrite H2. vm_compute. reflexivity.
Defined.



(** C9 as stated fails on an item whose category is the empty string: the
    create handler only tests that [category] is present and the store takes
    the item (201), but the read handler refuses an empty [category] in the
    query string (400), so the item just created cannot be read back. *)
Lemma round_trip_empty_category_counterexample :
  let item := dict [("id", VStr "a"); ("category", VStr "")] in
  ∃ w',
    create_item (json_request item) (running Mem.empty)
    = (Returns {| body := item; status := 201 |}, w')
    ∧ get_item (query_request "") "a" w'
      = (Returns (error_response "category query parameter is required" 400), w').
Proof.
  intros item. exists (create_item (json_request item) (running Mem.empty)).2.
  split; vm_compute; reflexivity.
Qed.

(** C9, amended to items whose [id] is a string and whose [category] is a
    string that is not empty.  On the in-memory store, when the create
    handler has answered 201 for such an item, a read of the same
    (id, category) that follows it answers 200 with the very item the create
    answered with. *)
Theorem create_then_get_round_trip (w w' : World Mem.state) (post get : Request)
    (item_id category : string) (m : gmap string value) (r : Response) :
  document_ready w →
  get_json post = Returns (VDict m) →
  m !! "id" = Some (VStr item_id) →
  m !! "category" = Some (VStr category) →
  category ≠ "" →
  args get !! "category" = Some category →
  Mem.faults (backend w) (CallReadItem item_id category) = None →
  create_item post w = (Returns r, w') →
  status r = 201 →
  get_item get item_id w'
  = (Returns {| body := body r; status := 200 |},
     after_call (CallReadItem item_id category) (backend w') w').
Proof.
  intros Hready Hjson Hid Hcat Hne Hargs Hfault Hcreate H201.
  rewrite (create_item_calls_backend w post m) in Hcreate by (by eauto).
  simpl in Hcreate. unfold Mem.guarded, Mem.create_item in Hcreate.
  cbn [Mem.doc_key] in Hcreate. rewrite Hid, Hcat in Hcreate. simpl in Hcreate.
  destruct (Mem.faults (backend w) (CallCreateItem _)) as [e|]; simpl in Hcreate.
  { destruct (exn_cls e); injection Hcreate as <- <-; discriminate. }
  destruct (Mem.docs (backend w) !! (item_id, Mem.PkStr category)) as [existing|];
    simpl in Hcreate.
  { injection Hcreate as <- <-. discriminate. }
  injection Hcreate as <- <-.
  rewrite (get_item_calls_backend _ get item_id category) by done.
  simpl. unfold Mem.guarded, Mem.read_item. simpl. rewrite Hfault.
  by rewrite lookup_insert_eq.
Qed.

(** C9 at one item. *)
Lemma create_then_get_round_trip_witness :
  let item := dict [("id", VStr "a"); ("category", VStr "c")] in
  ∃ w' w'',
    create_item (json_request item) (running Mem.empty)
    = (Returns {| body := item; status := 201 |}, w')
    ∧ get_item (query_request "c") "a" w'
      = (Returns {| body := item; status := 200 |}, w'').
Proof.
  intros item.
  pose (w' := (create_item (json_request item) (running Mem.empty)).2).
  exists w', (after_call (CallReadItem "a" "c") (backend w') w').
  assert (create_item (json_request item) (running Mem.empty)
          = (Returns {| body := item; status := 201 |}, w')) as Hcreate
    by (vm_compute; reflexivity).
  split; [exact Hcreate|].
  assert (document_ready (running Mem.empty)) as Hready
    by (vm_compute; reflexivity).
  exact (create_then_get_round_trip (running Mem.empty) w'
           (json_request item) (query_request "c") "a" "c"
           (list_to_map [("id", VStr "a"); ("category", VStr "c")])
           {| body := item; status := 201 |}
           Hready eq_refl eq_refl eq_refl ltac:(discriminate) eq_refl eq_refl
           Hcreate eq_refl).
Defined.

(** ** Secret handlers *)

Lemma ready_keyvault (g : Globals) :
  is_set (keyvault_client g) = true → ∃ c, keyvault_client g = Some c.
Proof. destruct (keyvault_client g); [eauto | discriminate]. Qed.

Section Secrets.
Context {S : Type} `{!Azure S}.

Implicit Types (w : World S) (name : string).

Lemma list_secrets_calls_backend w :
  secret_ready w →
  list_secrets w
  = match sdk_list_properties_of_secrets (backend w) with
    | (Returns secret_properties, s') =>
        (Returns {| body := dict
                      [("count", VInt (Z.of_nat (length (map listed secret_properties))));
                       ("secrets", VList (map listed secret_properties))];
                    status := 200 |},
         after_call CallListPropertiesOfSecrets s' w)
    | (Raises e, s') =>
        (Returns (error_response (exn_str e) 500),
         logged ERROR ("Error listing secrets: " ++ exn_str e)
           (after_call CallListPropertiesOfSecrets s' w))
    end.
Proof.
  intros Hready. destruct (ready_keyvault _ Hready) as [c ?].
  unfold list_secrets. open_world w. subst. py_unfold. simpl.
  by destruct (sdk_list_properties_of_secrets _) as [[props|e] s'].
Qed.

Lemma get_items_calls_backend w :
  document_ready w →
  get_items w
  = match sdk_read_all_items (backend w) with
    | (Returns items, s') =>
        (Returns {| body := dict [("count", VInt (Z.of_nat (length items)));
                                  ("items", VList items)];
                    status := 200 |},
         after_call CallReadAllItems s' w)
    | (Raises e, s') =>
        (Returns (error_response (exn_str e) 500),
         logged ERROR ("Error fetching items: " ++ exn_str e)
           (after_call CallReadAllItems s' w))
    end.
Proof.
  intros Hready. destruct (ready_container _ Hready) as [c ?].
  unfold get_items. open_world w. subst. py_unfold. simpl.
  by destruct (sdk_read_all_items _) as [[items|e] s'].
Qed.

Lemma get_secret_calls_backend w name :
  secret_ready w →
  get_secret name w
  = match sdk_get_secret name (backend w) with
    | (Returns secret, s') =>
        (Returns {| body := dict
                      [("name", VStr (secret_name secret));
                       ("value", VStr (secret_value secret));
                       ("enabled", VBool (sp_enabled (properties secret)));
                       ("created_on", timestamp (sp_created_on (properties secret)));
                       ("updated_on", timestamp (sp_updated_on (properties secret)))];
                    status := 200 |},
         after_call (CallGetSecret name) s' w)
    | (Raises e, s') =>
        (Returns (error_response (exn_str e) 500),
         logged ERROR ("Error getting secret '" ++ name ++ "': " ++ exn_str e)
           (after_call (CallGetSecret name) s' w))
    end.
Proof.
  intros Hready. destruct (ready_keyvault _ Hready) as [c ?].
  unfold get_secret. open_world w. subst. py_unfold. simpl.
  by destruct (sdk_get_secret _ _) as [[secret|e] s'].
Qed.

End Secrets.

(** C10. Whenever the list of items or the list of secrets is answered with
    200, [count] is the number of elements of the array in the same body. *)
Theorem count_is_length {S : Type} `{!Azure S} (w w' : World S) (r : Response) :
  (get_items w = (Returns r, w') → status r = 200 →
     ∃ items,
       field "items" (body r) = Some (VList items)
       ∧ field "count" (body r) = Some (VInt (Z.of_nat (length items))))
  ∧ (list_secrets w = (Returns r, w') → status r = 200 →
       ∃ secrets,
         field "secrets" (body r) = Some (VList secrets)
         ∧ field "count" (body r) = Some (VInt (Z.of_nat (length secrets)))).
Proof.
  split.
  - destruct (container (globals w)) as [c|] eqn:Hc.
    + rewrite get_items_calls_backend by (unfold document_ready; by rewrite Hc).
      destruct (sdk_read_all_items _) as [[items|e] s'];
        intros [= <- <-]; [|discriminate].
      intros _. by exists items.
    + rewrite (proj1 (unready_documents w (json_request VNone) "" Hc)).
      intros [= <- <-]. discriminate.
  - destruct (keyvault_client (globals w)) as [c|] eqn:Hc.
    + rewrite list_secrets_calls_backend by (unfold secret_ready; by rewrite Hc).
      destruct (sdk_list_properties_of_secrets _) as [[props|e] s'];
        intros [= <- <-]; [|discriminate].
      intros _. by exists (map listed props).
    + rewrite (proj1 (unready_secrets w (json_request VNone) "" Hc)).
      intros [= <- <-]. discriminate.
Qed.

(** C10 on a store that holds one document. *)
Lemma count_is_length_witness :
  let w := running (sample "k1" "p1") in
  let item := dict [("id", VStr "a"); ("category", VStr "c")] in
  let r := {| body := dict [("count", VInt 1); ("items", VList [item])];
              status := 200 |} in
  get_items w = (Returns r, after_call CallReadAllItems (backend w) w)
  ∧ ∃ items,
      field "items" (body r) = Some (VList items)
      ∧ field "count" (body r) = Some (VInt (Z.of_nat (length items))).
Proof.
  intros w item r.
  assert (get_items w = (Returns r, after_call CallReadAllItems (backend w) w))
    as Hlist by (vm_compute; reflexivity).
  split; [exact Hlist|].
  exact (proj1 (count_is_length w _ r) Hlist eq_refl).
Defined.

(** C6.  For every backend:
    - a 200 from the list handler carries, for each secret the vault lists,
      an object made of its [name] and its [enabled] flag and nothing else,
      in particular no [value], together with their count;
    - a 200 from the handler of a single secret carries its [value].
    On the in-memory vault, two states that hold the same secrets with the
    same properties, whatever their values, get the same answer from the
    list handler. *)
Theorem list_secrets_hides_values :
  (∀ (S : Type) (az : Azure S) (w w' : World S) (r : Response),
     list_secrets w = (Returns r, w') → status r = 200 →
     ∃ secret_properties s',
       sdk_list_properties_of_secrets (backend w) = (Returns secret_properties, s')
       ∧ body r = dict [("count", VInt (Z.of_nat (length secret_properties)));
                        ("secrets", VList (map listed secret_properties))]
       ∧ Forall (λ entry, field "value" entry = None
                          ∧ ∃ name enabled,
                              entry = dict [("name", VStr name);
                                            ("enabled", VBool enabled)])
                (map listed secret_properties))
  ∧ (∀ (S : Type) (az : Azure S) (w w' : World S) (name : string) (r : Response),
       get_secret name w = (Returns r, w') → status r = 200 →
       ∃ secret s',
         sdk_get_secret name (backend w) = (Returns secret, s')
         ∧ field "value" (body r) = Some (VStr (secret_value secret)))
  ∧ (∀ w1 w2 : World Mem.state,
       globals w1 = globals w2 →
       Mem.faults (backend w1) CallListPropertiesOfSecrets
       = Mem.faults (backend w2) CallListPropertiesOfSecrets →
       properties <$> Mem.secrets (backend w1)
       = properties <$> Mem.secrets (backend w2) →
       (list_secrets w1).1 = (list_secrets w2).1).
Proof.
  split; [|split].
  - intros S az w w' r. destruct (keyvault_client (globals w)) as [c|] eqn:Hc.
    + rewrite list_secrets_calls_backend by (unfold secret_ready; by rewrite Hc).
      destruct (sdk_list_properties_of_secrets _) as [[props|e] s'];
        intros [= <- <-]; [|discriminate].
      intros _. exists props, s'. split; [done|]. split.
      { simpl. by rewrite length_map. }
      apply Forall_forall. intros entry [p [-> _]]%list_elem_of_fmap.
      split; [done|]. by eexists _, _.
    + rewrite (proj1 (unready_secrets w (json_request VNone) "" Hc)).
      intros [= <- <-]. discriminate.
  - intros S az w w' name r. destruct (keyvault_client (globals w)) as [c|] eqn:Hc.
    + rewrite get_secret_calls_backend by (unfold secret_ready; by rewrite Hc).
      destruct (sdk_get_secret _ _) as [[secret|e] s'];
        intros [= <- <-]; [|discriminate].
      intros _. by exists secret, s'.
    + rewrite (proj1 (proj2 (unready_secrets w (json_request VNone) name Hc))).
      intros [= <- <-]. discriminate.
  - intros w1 w2 Hglobals Hfaults Hsecrets.
    destruct (keyvault_client (globals w1)) as [c|] eqn:Hc.
    + rewrite !list_secrets_calls_backend
        by (unfold secret_ready; by rewrite <- ?Hglobals, Hc).
      simpl. unfold Mem.guarded. rewrite Hfaults.
      destruct (Mem.faults (backend w2) _) as [e|]; [done|].
      unfold Mem.list_properties_of_secrets.
      assert (properties <$> (map_to_list (Mem.secrets (backend w1))).*2
              = properties <$> (map_to_list (Mem.secrets (backend w2))).*2) as Hsame.
      { transitivity ((map_to_list (properties <$> Mem.secrets (backend w1))).*2).
        - rewrite map_to_list_fmap, <- !list_fmap_compose. by apply list_fmap_ext.
        - rewrite Hsecrets, map_to_list_fmap, <- !list_fmap_compose.
          by apply list_fmap_ext. }
      simpl. by rewrite Hsame.
    + rewrite (proj1 (unready_secrets w1 (json_request VNone) "" Hc)).
      rewrite Hglobals in Hc.
      by rewrite (proj1 (unready_secrets w2 (json_request VNone) "" Hc)).
Qed.

(** C6 on two vaults that differ in the values of both secrets. *)
Lemma list_secrets_hides_values_witness :
  (list_secrets (running (sample "k1" "p1"))).1
  = (list_secrets (running (sample "other key" "other password"))).1.
Proof.
  apply (proj2 (proj2 list_secrets_hides_values)
           (running (sample "k1" "p1"))
           (running (sample "other key" "other password")));
    vm_compute; reflexivity.
Defined.

Example isoformat_utc :
  isoformat (Datetime 2024 1 2 3 4 5 0 (Some 0)) = "2024-01-02T03:04:05+00:00".
Proof. vm_compute. reflexivity. Qed.

Example isoformat_naive_microseconds :
  isoformat (Datetime 2023 12 31 23 59 59 250 None) = "2023-12-31T23:59:59.000250".
Proof. vm_compute. reflexivity. Qed.

(** C7.  For every backend:
    - the handler of a single secret always answers, with 200 or with 500,
      and so never with 404;
    - when the vault returns the secret, the answer is 200 with [name],
      [value], [enabled], and [created_on] and [updated_on], each the ISO
      text of the timestamp or [null] when there is none;
    - when the vault raises, whatever the exception, the answer is 500 with
      the text of the exception, after one log record.
    On the in-memory vault a name that is not there makes the vault raise
    "not found", and the answer is that 500. *)
Theorem get_secret_never_404 :
  (∀ (S : Type) (az : Azure S) (w : World S) (name : string),
     ∃ r w', get_secret name w = (Returns r, w')
             ∧ (status r = 200 ∨ status r = 500) ∧ status r ≠ 404)
  ∧ (∀ (S : Type) (az : Azure S) (w : World S) (name : string) secret s',
       secret_ready w →
       sdk_get_secret name (backend w) = (Returns secret, s') →
       get_secret name w
       = (Returns {| body := dict
                       [("name", VStr (secret_name secret));
                        ("value", VStr (secret_value secret));
                        ("enabled", VBool (sp_enabled (properties secret)));
                        ("created_on",
                         match sp_created_on (properties secret) with
                         | Some t => VStr (isoformat t)
                         | None => VNone
                         end);
                        ("updated_on",
                         match sp_updated_on (properties secret) with
                         | Some t => VStr (isoformat t)
                         | None => VNone
                         end)];
                     status := 200 |},
          after_call (CallGetSecret name) s' w))
  ∧ (∀ (S : Type) (az : Azure S) (w : World S) (name : string) e s',
       secret_ready w →
       sdk_get_secret name (backend w) = (Raises e, s') →
       get_secret name w
       = (Returns (error_response (exn_str e) 500),
          logged ERROR ("Error getting secret '" ++ name ++ "': " ++ exn_str e)
            (after_call (CallGetSecret name) s' w)))
  ∧ (∀ (w : World Mem.state) (name : string),
       secret_ready w →
       Mem.faults (backend w) (CallGetSecret name) = None →
       Mem.secrets (backend w) !! name = None →
       ∃ w', get_secret name w
             = (Returns (error_response (exn_str (Mem.secret_not_found name)) 500),
                w')).
Proof.
  split; [|split; [|split]].
  - intros S az w name. destruct (keyvault_client (globals w)) as [c|] eqn:Hc.
    + rewrite get_secret_calls_backend by (unfold secret_ready; by rewrite Hc).
      destruct (sdk_get_secret _ _) as [[secret|e] s'];
        do 2 eexists; (split; [reflexivity|]); simpl; split; auto; discriminate.
    + rewrite (proj1 (proj2 (unready_secrets w (json_request VNone) name Hc))).
      do 2 eexists; (split; [reflexivity|]); simpl; split; auto; discriminate.
  - intros S az w name secret s' Hready Hget.
    rewrite get_secret_calls_backend by done. by rewrite Hget.
  - intros S az w name e s' Hready Hget.
    rewrite get_secret_calls_backend by done. by rewrite Hget.
  - intros w name Hready Hfault Habsent.
    rewrite get_secret_calls_backend by done.
    simpl. unfold Mem.guarded, Mem.get_secret. rewrite Hfault, Habsent.
    by eexists.
Qed.

(** C7 on a vault that does not hold the secret asked for. *)
Lemma get_secret_never_404_witness :
  ∃ w', get_secret "missing" (running (sample "k1" "p1"))
        = (Returns (error_response
                      "(SecretNotFound) A secret with (name/id) missing was not found in this key vault."
                      500), w').
Proof.
  assert (secret_ready (running (sample "k1" "p1"))) as Hready
    by (vm_compute; reflexivity).
  assert (Mem.secrets (backend (running (sample "k1" "p1"))) !! "missing" = None)
    as Habsent by (vm_compute; reflexivity).
  exact (proj2 (proj2 (proj2 get_secret_never_404))
           (running (sample "k1" "p1")) "missing" Hready eq_refl Habsent).
Defined.

(** * Further properties of the views *)

(** Case analysis on every test a view makes, innermost first. *)
Ltac crush_view :=
  repeat (simpl; cbn [exn_cls exn_str];
          match goal with
          | |- context [match ?x with _ => _ end] =>
              lazymatch x with
              | context [match _ with _ => _ end] => fail
              | _ => destruct x eqn:?
              end
          end);
  simpl; cbn [exn_cls exn_str].

Lemma app_singleton_neq {A : Type} (l : list A) (x : A) : (l ++ [x])%list ≠ l.
Proof.
  intros Heq. apply (f_equal length) in Heq. rewrite length_app in Heq.
  simpl in Heq. lia.
Qed.

(** What every view does with every request in every state, for every
    backend. *)
Lemma view_envelope {S : Type} `{!Azure S} (endpoint : Endpoint) (request : Request)
    (w : World S) :
  ∃ r w',
    view endpoint request w = (Returns r, w')
    ∧ status r ∈ statuses endpoint
    ∧ globals w' = globals w
    ∧ (calls w' = calls w ∨ ∃ c, calls w' = (calls w ++ [c])%list)
    ∧ (logs w' = logs w
       ∨ status r = 500 ∧ ∃ msg, logs w' = (logs w ++ [(ERROR, msg)])%list)
    ∧ (400 ≤ status r → ∃ msg, body r = dict [("error", VStr msg)])
    ∧ (status r = 400 → w' = w)
    ∧ (status r = 500 → logs w' = logs w → w' = w).
Proof.
  destruct endpoint; unfold view; autounfold with handlers; unfold home;
    open_world w; py_unfold; unfold after_call, logged, error_response;
    crush_view.
  all: do 2 eexists; (split; [reflexivity|]); simpl;
    (split; [set_solver|]); (split; [reflexivity|]);
    (split; [by eauto|]); (split; [by eauto|]);
    (split; [first [lia | by intros _; eexists]|]);
    (split; [first [done | discriminate]|]).
  all: try discriminate.
  all: intros _ Hlog; first [done | by apply app_singleton_neq in Hlog].
Qed.

(** The operators on the body raise nothing but [TypeError] and [KeyError]. *)
Lemma py_in_raises (key : string) (v : value) (e : exn) :
  py_in key v = Raises e → exn_cls e = TypeError.
Proof. destruct v; simpl; intros Heq; by simplify_eq. Qed.

Lemma py_setitem_raises (key : string) (x v : value) (e : exn) :
  py_setitem key x v = Raises e → exn_cls e = TypeError.
Proof. destruct v; simpl; intros Heq; by simplify_eq. Qed.

Lemma py_getitem_raises (key : string) (v : value) (e : exn) :
  py_getitem key v = Raises e → exn_cls e = TypeError ∨ exn_cls e = KeyError.
Proof.
  destruct v; simpl; try destruct (_ !! _); intros Heq; simplify_eq; simpl; auto.
Qed.

(** A "not found" or "already exists" answer is never made up by a view:
    it follows exactly one call to the store, and leaves no log record. *)
Lemma store_verdicts {S : Type} `{!Azure S} (endpoint : Endpoint) (request : Request)
    (w w' : World S) (r : Response) :
  flask_request request →
  view endpoint request w = (Returns r, w') →
  status r = 404 ∨ status r = 409 →
  logs w' = logs w ∧ ∃ c, calls w' = (calls w ++ [c])%list.
Proof.
  intros Hflask.
  destruct endpoint; unfold view; autounfold with handlers; unfold home;
    open_world w; py_unfold; unfold after_call, logged, error_response;
    crush_view; intros Heq; simplify_eq; simpl; intros [|]; try discriminate.
  all: try (split; [reflexivity | by eexists]).
  all: repeat match goal with
       | H : get_json _ = Raises _ |- _ => apply Hflask in H
       | H : py_in _ _ = Raises _ |- _ => apply py_in_raises in H
       | H : py_setitem _ _ _ = Raises _ |- _ => apply py_setitem_raises in H
       end; congruence.
Qed.

(** X1. No view ever raises: whatever the request, the state of the
    process and the behaviour of the two services, it returns a response,
    and the status of that response is one of those its [return] statements
    name. *)
Theorem every_view_answers {S : Type} `{!Azure S} (endpoint : Endpoint)
    (request : Request) (w : World S) :
  ∃ r w', view endpoint request w = (Returns r, w')
          ∧ status r ∈ statuses endpoint.
Proof.
  destruct (view_envelope endpoint request w) as (r & w' & Hview & Hstatus & _).
  by exists r, w'.
Qed.

(** X2. Every answer with a status of 400 or more is a JSON object with the
    single field [error], a string. *)
Theorem error_answers_carry_error_field {S : Type} `{!Azure S} (endpoint : Endpoint)
    (request : Request) (w w' : World S) (r : Response) :
  view endpoint request w = (Returns r, w') →
  400 ≤ status r →
  ∃ msg, body r = dict [("error", VStr msg)].
Proof.
  intros Hview.
  destruct (view_envelope endpoint request w)
    as (r0 & w0 & Hview0 & _ & _ & _ & _ & Herror & _).
  rewrite Hview in Hview0. by simplify_eq.
Qed.

Lemma error_answers_carry_error_field_witness :
  ∃ msg, body (error_response "Item not found" 404) = dict [("error", VStr msg)].
Proof.
  assert (view (GET_item "a") (query_request "c") (running Mem.empty)
          = (Returns (error_response "Item not found" 404),
             after_call (CallReadItem "a" "c") (backend (running Mem.empty))
               (running Mem.empty))) as Hview
    by (vm_compute; reflexivity).
  exact (error_answers_carry_error_field _ _ _ _ _ Hview ltac:(simpl; lia)).
Defined.

(** X3. No view assigns a module global: the four handles are after a
    request what they were before it. *)
Theorem views_never_assign_handles {S : Type} `{!Azure S} (endpoint : Endpoint)
    (request : Request) (w : World S) :
  globals (view endpoint request w).2 = globals w.
Proof.
  destruct (view_envelope endpoint request w) as (r & w' & Hview & _ & Hglobals & _).
  by rewrite Hview.
Qed.

(** X4. A view makes at most one call to a service and writes at most one
    log record; a log record is always at level ERROR and always goes with
    a 500. *)
Theorem views_call_and_log_at_most_once {S : Type} `{!Azure S} (endpoint : Endpoint)
    (request : Request) (w : World S) :
  ∃ r w',
    view endpoint request w = (Returns r, w')
    ∧ (calls w' = calls w ∨ ∃ c, calls w' = (calls w ++ [c])%list)
    ∧ (logs w' = logs w
       ∨ status r = 500 ∧ ∃ msg, logs w' = (logs w ++ [(ERROR, msg)])%list).
Proof.
  destruct (view_envelope endpoint request w)
    as (r & w' & Hview & _ & _ & Hcalls & Hlogs & _).
  by exists r, w'.
Qed.

(** X5. A request that is refused with 400 has changed nothing: no call was
    made, nothing was logged, the services are as they were. *)
Theorem refusals_change_nothing {S : Type} `{!Azure S} (endpoint : Endpoint)
    (request : Request) (w w' : World S) (r : Response) :
  view endpoint request w = (Returns r, w') →
  status r = 400 →
  w' = w.
Proof.
  intros Hview.
  destruct (view_envelope endpoint request w)
    as (r0 & w0 & Hview0 & _ & _ & _ & _ & _ & H400 & _).
  rewrite Hview in Hview0. by simplify_eq.
Qed.

Lemma refusals_change_nothing_witness :
  (update_item (json_request (dict [("id", VStr "a")])) "a" (running Mem.empty)).2
  = running Mem.empty.
Proof.
  assert (view (PUT_item "a") (json_request (dict [("id", VStr "a")]))
            (running Mem.empty)
          = (Returns (error_response "category field is required" 400),
             (update_item (json_request (dict [("id", VStr "a")])) "a"
                (running Mem.empty)).2)) as Hview
    by (vm_compute; reflexivity).
  exact (refusals_change_nothing _ _ _ _ _ Hview eq_refl).
Defined.



(** X7. A "not found" (404) or an "already exists" (409) is never made up by
    a view: for a request whose body the framework could read or refuse, it
    follows exactly one call to the store and leaves no log record. *)
Theorem not_found_and_conflict_come_from_the_store {S : Type} `{!Azure S}
    (endpoint : Endpoint) (request : Request) (w w' : World S) (r : Response) :
  flask_request request →
  view endpoint request w = (Returns r, w') →
  status r = 404 ∨ status r = 409 →
  logs w' = logs w ∧ ∃ c, calls w' = (calls w ++ [c])%list.
Proof. apply store_verdicts. Qed.

Lemma not_found_and_conflict_come_from_the_store_witness :
  ∃ c, calls (delete_item (query_request "c") "a" (running Mem.empty)).2
       = (calls (running Mem.empty) ++ [c])%list.
Proof.
  assert (view (DELETE_item "a") (query_request "c") (running Mem.empty)
          = (Returns (error_response "Item not found" 404),
             (delete_item (query_request "c") "a" (running Mem.empty)).2)) as Hview
    by (vm_compute; reflexivity).
  assert (flask_request (query_request "c")) as Hflask by (intros e; discriminate).
  exact (proj2 (not_found_and_conflict_come_from_the_store _ _ _ _ _
                  Hflask Hview (or_introl eq_refl))).
Defined.

(** X8. The one call a view may make is determined by the route and the
    request.  A point read or a delete carries the id of the path and the
    non-empty [category] of the query string as partition key; a create
    forwards the body it received, unchanged, once [id] and [category]
    have been found in it; an upsert sends a JSON object that has a
    [category] and whose [id] is the id of the path; setting a secret sends
    the name of the path and the [value] of the body.  The health and root
    routes never call. *)
Theorem calls_are_determined_by_the_request {S : Type} `{!Azure S}
    (endpoint : Endpoint) (request : Request) (w w' : World S) (r : Response)
    (c : Call) :
  view endpoint request w = (Returns r, w') →
  calls w' = (calls w ++ [c])%list →
  expected_call endpoint request c.
Proof.
  destruct endpoint; unfold view; autounfold with handlers; unfold home;
    open_world w; py_unfold; unfold after_call, logged, error_response;
    crush_view; intros Heq; injection Heq as <- <-; simpl; intros Hcalls;
    try (by symmetry in Hcalls; apply app_singleton_neq in Hcalls);
    apply app_inv_head in Hcalls; injection Hcalls as <-.
  all: try done.
  all: try (destruct (args request !! "category") as [category|] eqn:Hcat;
            [|discriminate]; exists category; split; [done|]; split; [|done];
            intros ->; discriminate).
  all: repeat match goal with
         | H : negb ?b = false |- _ => apply negb_false_iff in H
         | H : _ || _ = false |- _ => apply orb_false_iff in H; destruct H
         end; subst.
  all: try (by eexists).
  all: match goal with
       | H : get_json _ = Returns ?d |- _ => destruct d; try discriminate
       end; simpl in *; simplify_eq.
  all: try match goal with
         | H : match ?m !! "value" with _ => _ end = _ |- _ =>
             destruct (m !! "value") eqn:?; simplify_eq
         end.
  all: try (by eexists _, _).
  all: eexists; split; [done|]; split; [|done].
  all: match goal with
       | H : bool_decide _ = true |- _ => by apply bool_decide_eq_true_1 in H
       end.
Qed.

Lemma calls_are_determined_by_the_request_witness :
  expected_call (PUT_item "a")
    (json_request (dict [("id", VStr "other"); ("category", VStr "c")]))
    (CallUpsertItem (dict [("id", VStr "a"); ("category", VStr "c")])).
Proof.
  pose (request := json_request (dict [("id", VStr "other"); ("category", VStr "c")])).
  pose (w' := (update_item request "a" (running Mem.empty)).2).
  assert (view (PUT_item "a") request (running Mem.empty)
          = (Returns {| body := dict [("id", VStr "a"); ("category", VStr "c")];
                        status := 200 |}, w')) as Hview
    by (vm_compute; reflexivity).
  assert (calls w'
          = (calls (running Mem.empty)
             ++ [CallUpsertItem (dict [("id", VStr "a"); ("category", VStr "c")])])%list)
    as Hcalls by (vm_compute; reflexivity).
  exact (calls_are_determined_by_the_request _ _ _ _ _ _ Hview Hcalls).
Defined.

(** X9. Setting a secret, with the secret handle ready, for every backend.
    When [get_json] raises, as the framework does for an absent or
    unreadable body, the answer is a logged 500 with the text of that error
    and nothing is called.  A body that [get_json] returns and that is false
    in a test (the JSON [null], [{}], [0], ...), and a JSON object without
    [value], are refused with 400 before any call.  For an object with a
    [value] the handler makes one call, with the name of the path and that
    value, and answers 201 with the name, a fixed message and the creation
    time (ISO text, or [null]) when the vault returns the secret, and a
    logged 500 with the text of the exception when it raises. *)
Theorem set_secret_validates_then_writes {S : Type} `{!Azure S} (w : World S)
    (request : Request) (name : string) :
  secret_ready w →
  (∀ e, get_json request = Raises e →
     set_secret request name w
     = (Returns (error_response (exn_str e) 500),
        logged ERROR ("Error setting secret '" ++ name ++ "': " ++ exn_str e) w))
  ∧ (∀ data, get_json request = Returns data → truthy data = false →
     set_secret request name w
     = (Returns (error_response "Request body must contain 'value' field" 400), w))
  ∧ (∀ m, get_json request = Returns (VDict m) → m !! "value" = None →
       set_secret request name w
       = (Returns (error_response "Request body must contain 'value' field" 400), w))
  ∧ (∀ m v, get_json request = Returns (VDict m) → m !! "value" = Some v →
       set_secret request name w
       = match sdk_set_secret name v (backend w) with
         | (Returns secret, s') =>
             (Returns {| body := dict
                           [("name", VStr (secret_name secret));
                            ("message", VStr "Secret created/updated successfully");
                            ("created_on",
                             match sp_created_on (properties secret) with
                             | Some t => VStr (isoformat t)
                             | None => VNone
                             end)];
                         status := 201 |},
              after_call (CallSetSecret name v) s' w)
         | (Raises e, s') =>
             (Returns (error_response (exn_str e) 500),
              logged ERROR ("Error setting secret '" ++ name ++ "': " ++ exn_str e)
                (after_call (CallSetSecret name v) s' w))
         end).
Proof.
  intros Hready. destruct (ready_keyvault _ Hready) as [c Hc].
  unfold set_secret. open_world w. subst. py_unfold. simpl.
  split; [|split; [|split]].
  - by intros e ->.
  - intros data -> Hfalse. simpl. by rewrite Hfalse.
  - intros m -> Hvalue. simpl. rewrite Hvalue.
    rewrite bool_decide_false by (by intros [? ?]).
    simpl. by destruct (size m =? 0)%nat.
  - intros m v -> Hvalue. simpl. rewrite Hvalue.
    rewrite bool_decide_true by eauto.
    assert ((size m =? 0)%nat = false) as ->.
    { apply Nat.eqb_neq. eapply map_size_ne_0_lookup_2. eauto. }
    simpl. by destruct (sdk_set_secret _ _ _) as [[secret|e] s'].
Qed.

Lemma set_secret_validates_then_writes_witness :
  set_secret (json_request (dict [("name", VStr "x")])) "x" (running Mem.empty)
  = (Returns (error_response "Request body must contain 'value' field" 400),
     running Mem.empty).
Proof.
  assert (secret_ready (running Mem.empty)) as Hready by (vm_compute; reflexivity).
  exact (proj1 (proj2 (proj2 (set_secret_validates_then_writes (running Mem.empty)
                                (json_request (dict [("name", VStr "x")])) "x"
                                Hready)))
           (list_to_map [("name", VStr "x")]) eq_refl eq_refl).
Defined.



(** X11. A body the framework cannot read is not a 400.  [get_json] is
    called inside the [try] block of each view, so what it raises lands in
    the catch-all: the answer is a logged 500 with the text of the
    exception, and nothing is called. *)
Theorem unreadable_body_is_a_500 {S : Type} `{!Azure S} (w : World S)
    (request : Request) (id : string) (e : exn) :
  get_json request = Raises e →
  exn_cls e = HTTPException →
  (document_ready w →
     create_item request w
     = (Returns (error_response (exn_str e) 500),
        logged ERROR ("Error creating item: " ++ exn_str e) w)
     ∧ update_item request id w
       = (Returns (error_response (exn_str e) 500),
          logged ERROR ("Error updating item: " ++ exn_str e) w))
  ∧ (secret_ready w →
       set_secret request id w
       = (Returns (error_response (exn_str e) 500),
          logged ERROR ("Error setting secret '" ++ id ++ "': " ++ exn_str e) w)).
Proof.
  intros Hjson Hcls. split.
  - intros Hready. destruct (ready_container _ Hready) as [c Hc].
    unfold create_item, update_item. open_world w. subst. py_unfold. simpl.
    rewrite Hjson. simpl. by rewrite Hcls.
  - intros Hready. destruct (ready_keyvault _ Hready) as [c Hc].
    unfold set_secret. open_world w. subst. py_unfold. simpl.
    by rewrite Hjson.
Qed.

Lemma unreadable_body_is_a_500_witness :
  let e := Exn HTTPException "400 Bad Request: The browser (or proxy) sent a request that this server could not understand." in
  create_item {| args := ∅; get_json := Raises e |} (running Mem.empty)
  = (Returns (error_response (exn_str e) 500),
     logged ERROR ("Error creating item: " ++ exn_str e) (running Mem.empty)).
Proof.
  intros e.
  assert (document_ready (running Mem.empty)) as Hready by (vm_compute; reflexivity).
  exact (proj1 (proj1 (unreadable_body_is_a_500 (running Mem.empty)
                         {| args := ∅; get_json := Raises e |} "a" e
                         eq_refl eq_refl) Hready)).
Defined.

(** X12. The Key Vault initialiser never raises and never touches the three
    Cosmos DB globals.  Without a vault URL (unset or empty) it returns
    [False] after a single WARNING, with no call and no handle assigned.
    With a URL it returns [True] exactly when the client could be built, and
    then [keyvault_client] is bound to that URL; when it returns [False] the
    handle is what it was before. *)
Theorem initialize_keyvault_client_never_raises {S : Type} `{!Azure S}
    (environ : gmap string string) (w : World S) :
  ∃ b w',
    initialize_keyvault_client environ w = (Returns b, w')
    ∧ cosmos_client (globals w') = cosmos_client (globals w)
    ∧ database (globals w') = database (globals w)
    ∧ container (globals w') = container (globals w)
    ∧ (str_truthy (KEY_VAULT_URL environ) = false →
         b = false ∧ globals w' = globals w ∧ backend w' = backend w
         ∧ calls w' = calls w
         ∧ logs w' = (logs w
                      ++ [(WARNING, "KEY_VAULT_URL environment variable is not set")])%list)
    ∧ (b = true ↔
         str_truthy (KEY_VAULT_URL environ) = true
         ∧ ∃ s', sdk_SecretClient (default "" (KEY_VAULT_URL environ)) (backend w)
                 = (Returns tt, s'))
    ∧ (b = true →
         keyvault_client (globals w')
         = Some {| vault_url := default "" (KEY_VAULT_URL environ) |}
         ∧ calls w'
           = (calls w ++ [CallSecretClient (default "" (KEY_VAULT_URL environ))])%list)
    ∧ (b = false → keyvault_client (globals w') = keyvault_client (globals w)).
Proof.
  open_world w. unfold initialize_keyvault_client. py_unfold.
  destruct (str_truthy (KEY_VAULT_URL environ)) eqn:Hurl; simpl.
  2:{ do 2 eexists. split; [reflexivity|]. simpl.
      repeat split; try done. by intros (? & _). }
  destruct (sdk_SecretClient _ backend0) as [[[]|e] s'] eqn:Hclient; simpl.
  - do 2 eexists. split; [reflexivity|]. simpl.
    repeat split; try done. by eexists.
  - do 2 eexists. split; [reflexivity|]. simpl.
    repeat split; try done. intros (_ & ? & ?). congruence.
Qed.

(** X13. After start-up the handles form a chain: the container handle is
    only set when the database handle is, and the database handle only when
    the client is.  In particular, when the document handlers are ready the
    health endpoint reports the document store as connected. *)
Theorem startup_sets_handles_in_order {S : Type} `{!Azure S}
    (environ : gmap string string) (s : S) (b : bool) (w' : World S) :
  startup environ (fresh s) = (Returns b, w') →
  (is_set (container (globals w')) = true → is_set (database (globals w')) = true)
  ∧ (is_set (database (globals w')) = true
     → is_set (cosmos_client (globals w')) = true).
Proof.
  unfold startup. unfold mbind at 1, Py_bind at 1.
  destruct (initialize_cosmos_client environ (fresh s)) as [[b1|e1] w1] eqn:Hinit;
    [|discriminate].
  destruct (initialize_keyvault_client_keeps_cosmos environ w1)
    as (b2 & w2 & Hkv & Hcc & Hdb & Hct).
  rewrite Hkv. intros [= <- <-]. rewrite Hcc, Hdb, Hct. clear Hkv Hcc Hdb Hct.
  revert Hinit. unfold initialize_cosmos_client. py_unfold. simpl.
  destruct (str_truthy _); simpl; [|by intros [= <- <-]].
  destruct (sdk_CosmosClient _ _) as [[[]|?] ?]; simpl; [|by intros [= <- <-]].
  destruct (sdk_create_database_if_not_exists _ _) as [[[]|?] ?]; simpl;
    [|by intros [= <- <-]].
  destruct (sdk_create_container_if_not_exists _ _ _ _) as [[[]|?] ?]; simpl;
    by intros [= <- <-].
Qed.

Lemma startup_sets_handles_in_order_witness :
  is_set (database (globals (running Mem.empty))) = true
  ∧ is_set (cosmos_client (globals (running Mem.empty))) = true.
Proof.
  assert (startup full_environ (fresh Mem.empty)
          = (Returns true, running Mem.empty)) as Hstart
    by (vm_compute; reflexivity).
  assert (is_set (database (globals (running Mem.empty))) = true) as Hdatabase
    by (vm_compute; reflexivity).
  exact (conj Hdatabase
           (proj2 (startup_sets_handles_in_order full_environ Mem.empty true
                     (running Mem.empty) Hstart) Hdatabase)).
Defined.

(** X14. After start-up the document handlers are ready exactly when an
    endpoint was configured and the three calls of the initialiser went
    through; what the Key Vault initialiser does afterwards has no part in
    it. *)
Theorem startup_readiness {S : Type} `{!Azure S} (environ : gmap string string)
    (s : S) (b : bool) (w' : World S) :
  startup environ (fresh s) = (Returns b, w') →
  document_ready w'
  ↔ str_truthy (COSMOS_ENDPOINT environ) = true ∧ backend_accepts environ s.
Proof.
  unfold startup, document_ready, backend_accepts.
  unfold mbind at 1, Py_bind at 1.
  destruct (initialize_cosmos_client environ (fresh s)) as [[b1|e1] w1] eqn:Hinit;
    [|discriminate].
  destruct (initialize_keyvault_client_keeps_cosmos environ w1)
    as (b2 & w2 & Hkv & _ & _ & Hct).
  rewrite Hkv. intros [= <- <-]. rewrite Hct. clear Hkv Hct.
  revert Hinit. unfold initialize_cosmos_client. py_unfold. simpl.
  destruct (str_truthy _); simpl.
  2:{ intros [= <- <-]. simpl. split; [discriminate | by intros [? _]]. }
  destruct (sdk_CosmosClient _ _) as [[[]|?] s1] eqn:H1; simpl.
  2:{ intros [= <- <-]. simpl. split; [discriminate|].
      intros (_ & ? & ? & ? & ? & _). congruence. }
  destruct (sdk_create_database_if_not_exists _ _) as [[[]|?] s2] eqn:H2; simpl.
  2:{ intros [= <- <-]. simpl. split; [discriminate|].
      intros (_ & ? & ? & ? & ? & ? & _). congruence. }
  destruct (sdk_create_container_if_not_exists _ _ _ _) as [[[]|?] s3] eqn:H3; simpl.
  2:{ intros [= <- <-]. simpl. split; [discriminate|].
      intros (_ & ? & ? & ? & ? & ? & ?). congruence. }
  intros [= <- <-]. simpl. split; [|done]. intros _. split; [done|].
  by exists s1, s2, s3.
Qed.

Lemma startup_readiness_witness :
  document_ready (running Mem.empty)
  ↔ str_truthy (COSMOS_ENDPOINT full_environ) = true
    ∧ backend_accepts full_environ Mem.empty.
Proof.
  assert (startup full_environ (fresh Mem.empty)
          = (Returns true, running Mem.empty)) as Hstart
    by (vm_compute; reflexivity).
  exact (startup_readiness full_environ Mem.empty true (running Mem.empty) Hstart).
Defined.

(** X15. Start-up never raises, and a document store that cannot be
    initialised does not keep the secret store from being initialised: with
    a vault URL configured the Key Vault client is always built, and the
    secret handlers are ready exactly when the Key Vault initialiser, whose
    result start-up returns, has returned [True]. *)
Theorem startup_reaches_the_vault {S : Type} `{!Azure S}
    (environ : gmap string string) (s : S) :
  ∃ b w',
    startup environ (fresh s) = (Returns b, w')
    ∧ (str_truthy (KEY_VAULT_URL environ) = true →
         CallSecretClient (default "" (KEY_VAULT_URL environ)) ∈ calls w')
    ∧ (b = true ↔ secret_ready w').
Proof.
  unfold startup. unfold mbind at 1, Py_bind at 1.
  assert (∃ b1 w1, initialize_cosmos_client environ (fresh s) = (Returns b1, w1)
                   ∧ keyvault_client (globals w1) = None)
    as (b1 & w1 & -> & Hnone).
  { unfold initialize_cosmos_client. py_unfold. simpl.
    destruct (str_truthy _); simpl; [|by eauto].
    destruct (sdk_CosmosClient _ _) as [[[]|?] ?]; simpl; [|by eauto].
    destruct (sdk_create_database_if_not_exists _ _) as [[[]|?] ?]; simpl;
      [|by eauto].
    destruct (sdk_create_container_if_not_exists _ _ _ _) as [[[]|?] ?]; simpl;
      by eauto. }
  unfold secret_ready. open_world w1. subst.
  unfold initialize_keyvault_client. py_unfold.
  destruct (str_truthy (KEY_VAULT_URL environ)) eqn:Hurl; simpl.
  2:{ do 2 eexists. split; [reflexivity|]. by split. }
  destruct (sdk_SecretClient _ _) as [[[]|e] s'] eqn:Hclient; simpl.
  - do 2 eexists. split; [reflexivity|]. simpl. split; [|done].
    intros _. apply elem_of_app. right. by apply list_elem_of_singleton.
  - do 2 eexists. split; [reflexivity|]. simpl. split; [|done].
    intros _. apply elem_of_app. right. by apply list_elem_of_singleton.
Qed.

(** ** Sequences of requests on the in-memory services *)

(** X16. Setting a secret and reading it back.  On the in-memory vault, for
    a body whose [value] is a string, the POST answers 201 with the name,
    and a GET of the same name that follows answers 200 with that value, the
    name, and [enabled] true, whether or not the vault held a secret of
    that name before, and whatever it held. *)
Theorem set_then_get_secret (w : World Mem.state) (request : Request)
    (name text : string) (m : gmap string value) :
  secret_ready w →
  get_json request = Returns (VDict m) →
  m !! "value" = Some (VStr text) →
  Mem.faults (backend w) (CallSetSecret name (VStr text)) = None →
  Mem.faults (backend w) (CallGetSecret name) = None →
  ∃ r1 w1 r2 w2,
    set_secret request name w = (Returns r1, w1)
    ∧ status r1 = 201
    ∧ field "name" (body r1) = Some (VStr name)
    ∧ get_secret name w1 = (Returns r2, w2)
    ∧ status r2 = 200
    ∧ field "name" (body r2) = Some (VStr name)
    ∧ field "value" (body r2) = Some (VStr text)
    ∧ field "enabled" (body r2) = Some (VBool true).
Proof.
  intros Hready Hjson Hvalue Hset Hget.
  destruct (ready_keyvault _ Hready) as [c Hc].
  assert (set_secret request name w
          = (Returns {| body := dict
                          [("name", VStr name);
                           ("message", VStr "Secret created/updated successfully");
                           ("created_on", VStr (isoformat (Mem.now (backend w))))];
                        status := 201 |},
             after_call (CallSetSecret name (VStr text))
               (Mem.set_secret name (VStr text) (backend w)).2 w)) as Hpost.
  { unfold set_secret. open_world w. subst. py_unfold. simpl.
    rewrite Hjson. simpl. rewrite Hvalue. rewrite bool_decide_true by eauto.
    assert ((size m =? 0)%nat = false) as ->.
    { apply Nat.eqb_neq. eapply map_size_ne_0_lookup_2. eauto. }
    simpl. unfold Mem.guarded. by rewrite Hset. }
  do 4 eexists. split; [exact Hpost|]. split; [done|]. split; [done|].
  rewrite get_secret_calls_backend by done.
  simpl. unfold Mem.guarded, Mem.get_secret. simpl. rewrite Hget.
  rewrite lookup_insert_eq. by repeat split.
Qed.

Lemma set_then_get_secret_witness :
  ∃ r1 w1 r2 w2,
    set_secret (json_request (dict [("value", VStr "bar")])) "api-key"
      (running (sample "k1" "p1")) = (Returns r1, w1)
    ∧ get_secret "api-key" w1 = (Returns r2, w2)
    ∧ field "value" (body r2) = Some (VStr "bar").
Proof.
  assert (secret_ready (running (sample "k1" "p1"))) as Hready
    by (vm_compute; reflexivity).
  destruct (set_then_get_secret (running (sample "k1" "p1"))
              (json_request (dict [("value", VStr "bar")])) "api-key" "bar"
              (list_to_map [("value", VStr "bar")])
              Hready eq_refl eq_refl eq_refl eq_refl)
    as (r1 & w1 & r2 & w2 & H1 & _ & _ & H2 & _ & _ & H3 & _).
  exists r1, w1, r2, w2. exact (conj H1 (conj H2 H3)).
Defined.

(** X17. Updating an item and reading it back.  On the in-memory store, for
    a body whose [category] is a non-empty string, the PUT answers 200 and
    a GET of the path id with that category that follows answers 200 with
    the very item the PUT answered with, whatever the store held under that
    key before. *)
Theorem update_then_get_round_trip (w : World Mem.state) (put get : Request)
    (item_id category : string) (m : gmap string value) :
  document_ready w →
  get_json put = Returns (VDict m) →
  m !! "category" = Some (VStr category) →
  category ≠ "" →
  args get !! "category" = Some category →
  Mem.faults (backend w) (CallUpsertItem (VDict (<["id" := VStr item_id]> m))) = None →
  Mem.faults (backend w) (CallReadItem item_id category) = None →
  ∃ r w',
    update_item put item_id w = (Returns r, w')
    ∧ status r = 200
    ∧ get_item get item_id w'
      = (Returns {| body := body r; status := 200 |},
         after_call (CallReadItem item_id category) (backend w') w').
Proof.
  intros Hready Hjson Hcat Hne Hargs Hupsert Hread.
  rewrite (update_item_calls_backend w put item_id m) by (by eauto).
  simpl. unfold Mem.guarded, Mem.upsert_item. rewrite Hupsert.
  cbn [Mem.doc_key]. rewrite lookup_insert_eq.
  rewrite lookup_insert_ne by done. rewrite Hcat. simpl.
  do 2 eexists. split; [reflexivity|]. split; [done|].
  rewrite (get_item_calls_backend _ get item_id category) by done.
  simpl. unfold Mem.guarded, Mem.read_item. simpl. rewrite Hread.
  by rewrite lookup_insert_eq.
Qed.

Lemma update_then_get_round_trip_witness :
  let item := dict [("category", VStr "c"); ("price", VInt 3)] in
  ∃ r w' w'',
    update_item (json_request item) "a" (running (sample "k1" "p1")) = (Returns r, w')
    ∧ get_item (query_request "c") "a" w'
      = (Returns {| body := body r; status := 200 |}, w'').
Proof.
  intros item.
  assert (document_ready (running (sample "k1" "p1"))) as Hready
    by (vm_compute; reflexivity).
  destruct (update_then_get_round_trip (running (sample "k1" "p1"))
              (json_request item) (query_request "c") "a" "c"
              (list_to_map [("category", VStr "c"); ("price", VInt 3)])
              Hready eq_refl eq_refl ltac:(discriminate) eq_refl eq_refl eq_refl)
    as (r & w' & H1 & _ & H2).
  exists r, w', (after_call (CallReadItem "a" "c") (backend w') w').
  exact (conj H1 H2).
Defined.

(** X18. Deleting an item and reading it.  On the in-memory store, once a
    DELETE has answered 200, a GET of the same id and category answers 404. *)
Theorem delete_then_get_is_404 (w w' : World Mem.state) (request : Request)
    (item_id category : string) (r : Response) :
  document_ready w →
  args request !! "category" = Some category →
  category ≠ "" →
  Mem.faults (backend w) (CallReadItem item_id category) = None →
  delete_item request item_id w = (Returns r, w') →
  status r = 200 →
  get_item request item_id w'
  = (Returns (error_response "Item not found" 404),
     after_call (CallReadItem item_id category) (backend w') w').
Proof.
  intros Hready Hargs Hne Hread Hdelete H200.
  rewrite (delete_item_calls_backend w request item_id category) in Hdelete by done.
  simpl in Hdelete. unfold Mem.guarded, Mem.delete_item in Hdelete.
  destruct (Mem.faults (backend w) (CallDeleteItem _ _)) as [e|]; simpl in Hdelete.
  { destruct (exn_cls e); injection Hdelete as <- <-; discriminate. }
  destruct (Mem.docs (backend w) !! (item_id, Mem.PkStr category)) as [doc|];
    simpl in Hdelete; injection Hdelete as <- <-; [|discriminate].
  rewrite (get_item_calls_backend _ request item_id category) by done.
  simpl. unfold Mem.guarded, Mem.read_item. simpl. rewrite Hread.
  by rewrite lookup_delete_eq.
Qed.

Lemma delete_then_get_is_404_witness :
  ∃ w' w'',
    delete_item (query_request "c") "a" (running (sample "k1" "p1"))
    = (Returns {| body := dict [("message", VStr "Item deleted successfully")];
                  status := 200 |}, w')
    ∧ get_item (query_request "c") "a" w'
      = (Returns (error_response "Item not found" 404), w'').
Proof.
  pose (w' := (delete_item (query_request "c") "a" (running (sample "k1" "p1"))).2).
  assert (delete_item (query_request "c") "a" (running (sample "k1" "p1"))
          = (Returns {| body := dict [("message", VStr "Item deleted successfully")];
                        status := 200 |}, w')) as Hdelete
    by (vm_compute; reflexivity).
  assert (document_ready (running (sample "k1" "p1"))) as Hready
    by (vm_compute; reflexivity).
  exists w', (after_call (CallReadItem "a" "c") (backend w') w').
  split; [exact Hdelete|].
  exact (delete_then_get_is_404 _ w' (query_request "c") "a" "c" _
           Hready eq_refl ltac:(discriminate) eq_refl Hdelete eq_refl).
Defined.

(** X19. The update is idempotent.  On the in-memory store, sending the same
    PUT a second time gets the same answer as the first and leaves the
    services exactly as the first left them. *)
Theorem update_item_is_idempotent (w : World Mem.state) (request : Request)
    (item_id : string) (m : gmap string value) :
  document_ready w →
  get_json request = Returns (VDict m) →
  is_Some (m !! "category") →
  Mem.faults (backend w) (CallUpsertItem (VDict (<["id" := VStr item_id]> m))) = None →
  ∃ r w1 w2,
    update_item request item_id w = (Returns r, w1)
    ∧ update_item request item_id w1 = (Returns r, w2)
    ∧ status r = 200
    ∧ backend w2 = backend w1.
Proof.
  intros Hready Hjson Hcat Hupsert.
  rewrite (update_item_calls_backend w request item_id m) by done.
  simpl. unfold Mem.guarded, Mem.upsert_item. rewrite Hupsert.
  cbn [Mem.doc_key]. rewrite lookup_insert_eq.
  do 3 eexists. split; [reflexivity|].
  rewrite (update_item_calls_backend _ request item_id m) by done.
  simpl. unfold Mem.guarded, Mem.upsert_item. simpl. rewrite Hupsert.
  rewrite lookup_insert_eq. split; [reflexivity|]. split; [done|]. simpl.
  unfold Mem.with_docs. simpl. by rewrite insert_insert_eq.
Qed.

Lemma update_item_is_idempotent_witness :
  let request := json_request (dict [("category", VStr "c"); ("price", VInt 3)]) in
  ∃ r w1 w2,
    update_item request "a" (running Mem.empty) = (Returns r, w1)
    ∧ update_item request "a" w1 = (Returns r, w2)
    ∧ backend w2 = backend w1.
Proof.
  intros request.
  assert (document_ready (running Mem.empty)) as Hready
    by (vm_compute; reflexivity).
  destruct (update_item_is_idempotent (running Mem.empty) request "a"
              (list_to_map [("category", VStr "c"); ("price", VInt 3)])
              Hready eq_refl (mk_is_Some _ _ eq_refl) eq_refl)
    as (r & w1 & w2 & H1 & H2 & _ & H3).
  exists r, w1, w2. exact (conj H1 (conj H2 H3)).
Defined.

(** X20. What a request can change in the services.  On the in-memory
    services, whatever the request and whether or not it succeeds:
    - a GET changes nothing at all;
    - a POST of an item changes no secret and neither replaces nor removes
      any document that was stored;
    - a PUT or a DELETE of an item changes no secret and no document whose
      id is not the id of the path;
    - a POST of a secret changes no document and no secret of another
      name. *)
Theorem effects_are_local (w : World Mem.state) (endpoint : Endpoint)
    (request : Request) :
  let s := backend w in
  let s' := backend (view endpoint request w).2 in
  match endpoint with
  | POST_items =>
      Mem.secrets s' = Mem.secrets s
      ∧ ∀ k doc, Mem.docs s !! k = Some doc → Mem.docs s' !! k = Some doc
  | PUT_item item_id | DELETE_item item_id =>
      Mem.secrets s' = Mem.secrets s
      ∧ ∀ k, k.1 ≠ item_id → Mem.docs s' !! k = Mem.docs s !! k
  | POST_secret name =>
      Mem.docs s' = Mem.docs s
      ∧ ∀ n, n ≠ name → Mem.secrets s' !! n = Mem.secrets s !! n
  | _ => s' = s
  end.
Proof.
  destruct endpoint; unfold view; autounfold with handlers; unfold home;
    open_world w; py_unfold; unfold after_call, logged, error_response;
    simpl;
    unfold Mem.guarded, Mem.read_all_items, Mem.read_item, Mem.create_item,
      Mem.upsert_item, Mem.delete_item, Mem.list_properties_of_secrets,
      Mem.get_secret, Mem.set_secret, Mem.with_docs;
    crush_view.
  all: try reflexivity.
  all: try (by split).
  - split; [done|]. intros k doc Hk.
    destruct (decide (p = k)) as [->|Hne]; [congruence|].
    by rewrite lookup_insert_ne.
  - split; [done|]. intros k Hk. apply lookup_insert_ne. intros <-. apply Hk.
    match goal with
    | H : py_setitem _ _ ?d = Returns _ |- _ => destruct d; simplify_eq/=
    end.
    match goal with
    | H : context [<[_:=_]> _ !! "id"] |- _ => rewrite lookup_insert_eq in H
    end.
    by simplify_eq.
  - split; [done|]. intros k Hk. apply lookup_delete_ne. intros <-. by apply Hk.
  - split; [done|]. intros n Hn. by apply lookup_insert_ne.
Qed.

Lemma effects_are_local_witness :
  let item := dict [("id", VStr "a"); ("category", VStr "c")] in
  let changed := dict [("id", VStr "a"); ("category", VStr "c"); ("price", VInt 9)] in
  Mem.docs (backend (create_item (json_request changed) (running (sample "k1" "p1"))).2)
    !! ("a", Mem.PkStr "c") = Some item.
Proof.
  intros item changed.
  assert (Mem.docs (backend (running (sample "k1" "p1"))) !! ("a", Mem.PkStr "c")
          = Some item) as Hstored by (vm_compute; reflexivity).
  exact (proj2 (effects_are_local (running (sample "k1" "p1")) POST_items
                  (json_request changed)) ("a", Mem.PkStr "c") item Hstored).
Defined.

(** X21. Listing the items shows the store as it is.  On the in-memory
    store, with the document handle ready, the answer is 200, [count] is
    the number of stored documents, and [items] holds exactly the stored
    documents; the store is left as it was. *)
Theorem get_items_lists_the_store (w : World Mem.state) :
  document_ready w →
  Mem.faults (backend w) CallReadAllItems = None →
  ∃ items,
    get_items w
    = (Returns {| body := dict [("count", VInt (Z.of_nat (size (Mem.docs (backend w)))));
                                ("items", VList items)];
                  status := 200 |},
       after_call CallReadAllItems (backend w) w)
    ∧ length items = size (Mem.docs (backend w))
    ∧ ∀ doc, doc ∈ items ↔ ∃ k, Mem.docs (backend w) !! k = Some doc.
Proof.
  intros Hready Hfault. rewrite get_items_calls_backend by done.
  simpl. unfold Mem.guarded, Mem.read_all_items. rewrite Hfault.
  exists ((map_to_list (Mem.docs (backend w))).*2).
  assert (length (map_to_list (Mem.docs (backend w))).*2
          = size (Mem.docs (backend w))) as Hlength
    by (by rewrite length_fmap, length_map_to_list).
  split; [by rewrite Hlength|]. split; [done|].
  intros doc. rewrite list_elem_of_fmap. split.
  - intros ([k doc'] & -> & Hin). exists k. by apply elem_of_map_to_list.
  - intros [k Hk]. exists (k, doc). split; [done|]. by apply elem_of_map_to_list.
Qed.

Lemma get_items_lists_the_store_witness :
  ∃ items,
    get_items (running (sample "k1" "p1"))
    = (Returns {| body := dict [("count", VInt 1); ("items", VList items)];
                  status := 200 |},
       after_call CallReadAllItems (backend (running (sample "k1" "p1")))
         (running (sample "k1" "p1")))
    ∧ length items = 1%nat.
Proof.
  assert (document_ready (running (sample "k1" "p1"))) as Hready
    by (vm_compute; reflexivity).
  assert (size (Mem.docs (backend (running (sample "k1" "p1")))) = 1%nat) as Hsize
    by (vm_compute; reflexivity).
  destruct (get_items_lists_the_store (running (sample "k1" "p1")) Hready eq_refl)
    as (items & Hlist & Hlength & _).
  exists items. rewrite Hsize in Hlist, Hlength. exact (conj Hlist Hlength).
Defined.

(** X22. Listing the secrets shows the vault as it is.  On the in-memory
    vault, with the secret handle ready, the answer is 200, [count] is the
    number of secrets the vault holds, and [secrets] holds exactly one entry
    (name and enabled flag) per stored secret, disabled ones included. *)
Theorem list_secrets_lists_the_vault (w : World Mem.state) :
  secret_ready w →
  Mem.faults (backend w) CallListPropertiesOfSecrets = None →
  ∃ entries,
    list_secrets w
    = (Returns {| body := dict
                    [("count", VInt (Z.of_nat (size (Mem.secrets (backend w)))));
                     ("secrets", VList entries)];
                  status := 200 |},
       after_call CallListPropertiesOfSecrets (backend w) w)
    ∧ length entries = size (Mem.secrets (backend w))
    ∧ ∀ entry, entry ∈ entries
               ↔ ∃ name secret, Mem.secrets (backend w) !! name = Some secret
                                ∧ entry = listed (properties secret).
Proof.
  intros Hready Hfault. rewrite list_secrets_calls_backend by done.
  simpl. unfold Mem.guarded, Mem.list_properties_of_secrets. rewrite Hfault.
  exists (map listed (properties <$> (map_to_list (Mem.secrets (backend w))).*2)).
  assert (length (map listed (properties <$> (map_to_list (Mem.secrets (backend w))).*2))
          = size (Mem.secrets (backend w))) as Hlength
    by (by rewrite length_map, !length_fmap, length_map_to_list).
  split; [by rewrite Hlength|]. split; [done|].
  intros entry. split.
  - intros (p & -> & (secret & -> & ([name secret'] & -> & Hin)%list_elem_of_fmap)
              %list_elem_of_fmap)%list_elem_of_fmap.
    exists name, secret'. split; [|done]. by apply elem_of_map_to_list.
  - intros (name & secret & Hstored & ->).
    apply list_elem_of_fmap. exists (properties secret). split; [done|].
    apply list_elem_of_fmap. exists secret. split; [done|].
    apply list_elem_of_fmap. exists (name, secret). split; [done|].
    by apply elem_of_map_to_list.
Qed.

Lemma list_secrets_lists_the_vault_witness :
  ∃ entries,
    (list_secrets (running (sample "k1" "p1"))).1
    = Returns {| body := dict [("count", VInt 2); ("secrets", VList entries)];
                 status := 200 |}
    ∧ listed (properties (sample_secret "db-password" "p1" false)) ∈ entries.
Proof.
  assert (secret_ready (running (sample "k1" "p1"))) as Hready
    by (vm_compute; reflexivity).
  assert (size (Mem.secrets (backend (running (sample "k1" "p1")))) = 2%nat) as Hsize
    by (vm_compute; reflexivity).
  assert (Mem.secrets (backend (running (sample "k1" "p1"))) !! "db-password"
          = Some (sample_secret "db-password" "p1" false)) as Hstored
    by (vm_compute; reflexivity).
  destruct (list_secrets_lists_the_vault (running (sample "k1" "p1")) Hready eq_refl)
    as (entries & Hlist & _ & Hentries).
  exists entries. rewrite Hsize in Hlist. rewrite Hlist. split; [reflexivity|].
  apply Hentries. exists "db-password", (sample_secret "db-password" "p1" false).
  exact (conj Hstored eq_refl).
Defined.

Lemma string_app_assoc (a b c : string) :
  ((a ++ b) ++ c = a ++ b ++ c)%string.
Proof.
  induction a as [|x a IH]; [reflexivity|].
  change (String x ((a ++ b) ++ c) = String x (a ++ b ++ c))%string.
  by f_equal.
Qed.

(** X23. What is logged is what is sent, and it is the text of the
    exception.  Whenever a view writes a log record, an exception [e] was
    raised while it ran, by [get_json], by an operator applied to the body,
    or by the one call to the backend; the answer is a 500 whose [error] is
    [str(e)], and the record is the same text after the prefix of the
    operation: the caller is shown the message of the backend (or of the
    framework) as it is. *)
Theorem logged_failures_are_surfaced {S : Type} `{!Azure S} (endpoint : Endpoint)
    (request : Request) (w w' : World S) (r : Response) :
  view endpoint request w = (Returns r, w') →
  logs w' ≠ logs w →
  ∃ e,
    status r = 500
    ∧ body r = dict [("error", VStr (exn_str e))]
    ∧ logs w' = (logs w ++ [(ERROR, (operation_prefix endpoint ++ exn_str e)%string)])%list
    ∧ (get_json request = Raises e
       ∨ (∃ data, get_json request = Returns data ∧ body_operator_raises data e)
       ∨ ∃ c, calls w' = (calls w ++ [c])%list ∧ call_raises c (backend w) e).
Proof.
  destruct endpoint; unfold view, body_operator_raises; autounfold with handlers;
    unfold home; open_world w; py_unfold;
    unfold after_call, logged, error_response;
    crush_view; intros Heq; injection Heq as <- <-; simpl; intros Hlogs;
    try done.
  all: match type of Hlogs with context [exn_str ?e] => exists e end.
  all: split; [reflexivity|]; split; [reflexivity|]; split;
    [by rewrite ?string_app_assoc|].
  all: first
    [ by left
    | right; left; eexists; split; [reflexivity|];
      match goal with
      | H : py_in ?k _ = Raises _ |- _ => exists k; by left
      | H : py_getitem ?k _ = Raises _ |- _ => exists k; right; by left
      | H : py_setitem ?k ?x _ = Raises _ |- _ => exists k; right; right; by exists x
      end
    | right; right; eexists; split; [reflexivity|]; simpl; by eexists ].
Qed.

Lemma logged_failures_are_surfaced_witness :
  ∃ e,
    body (error_response
            "(SecretNotFound) A secret with (name/id) missing was not found in this key vault."
            500) = dict [("error", VStr (exn_str e))]
    ∧ logs (get_secret "missing" (running (sample "k1" "p1"))).2
      = (logs (running (sample "k1" "p1"))
         ++ [(ERROR, ("Error getting secret 'missing': " ++ exn_str e)%string)])%list.
Proof.
  assert (view (GET_secret "missing") (json_request VNone) (running (sample "k1" "p1"))
          = (Returns (error_response
                        "(SecretNotFound) A secret with (name/id) missing was not found in this key vault."
                        500),
             (get_secret "missing" (running (sample "k1" "p1"))).2)) as Hview
    by (vm_compute; reflexivity).
  assert (logs (get_secret "missing" (running (sample "k1" "p1"))).2
          ≠ logs (running (sample "k1" "p1"))) as Hlogs
    by (vm_compute; intros Heq; apply (f_equal length) in Heq; discriminate).
  destruct (logged_failures_are_surfaced _ _ _ _ _ Hview Hlogs)
    as (e & _ & Hbody & Hlog & _).
  exists e. exact (conj Hbody Hlog).
Defined.

(** X24. For the secret store the health endpoint is accurate in every
    state: it reports [keyvault_connected] true exactly when the secret
    handlers are ready, that is exactly when a request for the list of
    secrets reaches the vault. *)
Theorem health_is_accurate_for_the_vault {S : Type} `{!Azure S} (w : World S) :
  ∃ r,
    health_check w = (Returns r, w)
    ∧ (field "keyvault_connected" (body r) = Some (VBool true) ↔ secret_ready w)
    ∧ (secret_ready w
       ↔ calls (list_secrets w).2 = (calls w ++ [CallListPropertiesOfSecrets])%list).
Proof.
  eexists. split; [apply health_check_always_200|]. split.
  - simpl. unfold secret_ready.
    destruct (is_set (keyvault_client (globals w))); split; by intros [=].
  - split.
    + intros Hready. rewrite list_secrets_calls_backend by done.
      by destruct (sdk_list_properties_of_secrets _) as [[props|e] s'].
    + destruct (keyvault_client (globals w)) as [c|] eqn:Hc.
      * intros _. unfold secret_ready. by rewrite Hc.
      * rewrite (proj1 (unready_secrets w (json_request VNone) "" Hc)). simpl.
        intros Heq. symmetry in Heq. by apply app_singleton_neq in Heq.
Qed.
